(** * Rest-Shop: serializers and route table

    A shallow embedding of [restshop/serializers.py] and [restshop/urls.py].

    The Django models live in [restshop/models.py]; what the serializers use
    of them (columns, foreign keys, reverse accessors) is embedded here as a
    small relational store: one list of rows per table, foreign keys as
    primary-key values, reverse accessors as queries over the store. *)

From Stdlib Require Import ZArith List String Ascii Bool Lia.
Import ListNotations.

#[local] Set Warnings "-register-all".

Open Scope string_scope.
Open Scope Z_scope.
Open Scope list_scope.

(** ** Representations

    What a serializer returns: the Python values that end up in the
    response ([None], integers, decimals, strings, lists, ordered
    dictionaries).  A decimal column is kept as its scaled integer (the
    number of minor units), which is exact for a fixed number of places. *)

Inductive value : Type :=
| VNone
| VInt (z : Z)
| VDecimal (z : Z)
| VStr (s : string)
| VList (l : list value)
| VDict (d : list (string * value)).

(** [d.keys()] *)
Definition dict_keys (d : list (string * value)) : list string := map fst d.

(** [d.get(k)] *)
Fixpoint dict_get (k : string) (d : list (string * value)) : option value :=
  match d with
  | [] => None
  | (k', v) :: d' => if String.eqb k k' then Some v else dict_get k d'
  end.

(** [d[k] = v] on an ordered dictionary: an existing key keeps its place,
    a new key goes last. *)
Fixpoint dict_set (k : string) (v : value) (d : list (string * value))
  : list (string * value) :=
  match d with
  | [] => [(k, v)]
  | (k', v') :: d' =>
      if String.eqb k k' then (k', v) :: d' else (k', v') :: dict_set k v d'
  end.

(** ** Exceptions and results *)

Inductive exn : Type :=
| ObjectDoesNotExist
| MultipleObjectsReturned
| IntegrityError
| ImproperlyConfigured
| ImportError
| OSError
| ValidationError (msg : string).

Inductive result (A : Type) : Type :=
| Ok (a : A)
| Raise (e : exn).

Arguments Ok {A} a.
Arguments Raise {A} e.

Definition rbind {A B} (r : result A) (f : A -> result B) : result B :=
  match r with
  | Ok a => f a
  | Raise e => Raise e
  end.

Declare Scope result_scope.
Delimit Scope result_scope with result.
Notation "'let?' x ':=' r 'in' k" := (rbind r (fun x => k))
  (at level 10, x name, r at level 100, k at level 200) : result_scope.

(** A list comprehension whose body may raise. *)
Fixpoint map_result {A B} (f : A -> result B) (l : list A) : result (list B) :=
  match l with
  | [] => Ok []
  | x :: l' =>
      (let? y := f x in
       let? ys := map_result f l' in
       Ok (y :: ys))%result
  end.

(** ** Query sets *)

Module QuerySet.

(** [.get(...)]: the one row that matches. *)
Definition get {A} (p : A -> bool) (rows : list A) : result A :=
  match filter p rows with
  | [] => Raise ObjectDoesNotExist
  | [x] => Ok x
  | _ :: _ :: _ => Raise MultipleObjectsReturned
  end.

Fixpoint insert_by {A} (key : A -> Z) (x : A) (l : list A) : list A :=
  match l with
  | [] => [x]
  | y :: l' => if key x <=? key y then x :: l else y :: insert_by key x l'
  end.

(** [.order_by(...)]: rows sorted by [key], ascending.  Rows with equal
    keys keep the order in which the table yields them. *)
Definition order_by {A} (key : A -> Z) (rows : list A) : list A :=
  fold_right (insert_by key) [] rows.

(** [.first()] of an ordered query set. *)
Definition first {A} (rows : list A) : option A := hd_error rows.

(** [.exists()] *)
Definition exists_ {A} (rows : list A) : bool :=
  match rows with [] => false | _ :: _ => true end.

(** [.count()] *)
Definition count {A} (rows : list A) : Z := Z.of_nat (List.length rows).

(** [Max(...)] and [Min(...)] of [.aggregate]: [None] over no rows. *)
Definition aggregate_max (xs : list Z) : option Z :=
  match xs with
  | [] => None
  | x :: xs' => Some (fold_left Z.max xs' x)
  end.

Definition aggregate_min (xs : list Z) : option Z :=
  match xs with
  | [] => None
  | x :: xs' => Some (fold_left Z.min xs' x)
  end.

(** The next value of an auto-increment primary key. *)
Definition next_id (ids : list Z) : Z := 1 + fold_right Z.max 0 ids.

End QuerySet.

(** ** Models *)

Record Tag := { tag_id : Z; tag_name : string }.

Record Product := { product_id : Z; title : string; description : string }.

Record Unit :=
  { unit_id : Z;
    sku : string;
    price : Z;
    num_in_stock : Z;
    unit_product : Z }.

Record UnitImage :=
  { image_id : Z; image_url : string; is_main : bool; image_unit : Z }.

Record Property := { property_id : Z; property_name : string }.

Record PropertyValue :=
  { value_id : Z; value_value : string; value_property : Z }.

Record Order :=
  { order_id : Z;
    created_at : string;
    order_name : string;
    order_address : string;
    order_phone : string }.

Record OrderUnit :=
  { orderunit_id : Z;
    orderunit_order : Z;
    orderunit_unit : Z;
    quantity : Z;
    status : Z;
    unit_price : Z }.

Record Permission := { permission_id : Z; permission_codename : string }.

Record Group := { group_id : Z; group_name : string }.

(** A stored password: what [User.objects.create] leaves when none is given,
    or the salted hash [set_password] makes of a raw password. *)
Inductive Password : Type :=
| NoPassword
| Hashed (raw : string).

Record User :=
  { user_id : Z; user_username : string; user_email : string;
    user_password : Password }.

Record Seller :=
  { seller_id : Z; seller_user : Z; seller_name : string;
    seller_address : string }.

(** The store.  The pair tables are the many-to-many link tables:
    [tag_products] holds (tag, product), [value_units] (property value,
    unit), [group_permissions] (group, permission), [user_groups]
    (user, group). *)
Record DB :=
  { tags : list Tag;
    tag_products : list (Z * Z);
    products : list Product;
    units : list Unit;
    unitimages : list UnitImage;
    properties : list Property;
    propertyvalues : list PropertyValue;
    value_units : list (Z * Z);
    orders : list Order;
    orderunits : list OrderUnit;
    permissions : list Permission;
    groups : list Group;
    group_permissions : list (Z * Z);
    users : list User;
    user_groups : list (Z * Z);
    sellers : list Seller }.

Definition set_units (db : DB) (x : list Unit) : DB :=
  {| tags := tags db; tag_products := tag_products db;
     products := products db; units := x; unitimages := unitimages db;
     properties := properties db; propertyvalues := propertyvalues db;
     value_units := value_units db; orders := orders db;
     orderunits := orderunits db; permissions := permissions db;
     groups := groups db; group_permissions := group_permissions db;
     users := users db; user_groups := user_groups db;
     sellers := sellers db |}.

Definition set_groups (db : DB) (x : list Group) : DB :=
  {| tags := tags db; tag_products := tag_products db;
     products := products db; units := units db; unitimages := unitimages db;
     properties := properties db; propertyvalues := propertyvalues db;
     value_units := value_units db; orders := orders db;
     orderunits := orderunits db; permissions := permissions db;
     groups := x; group_permissions := group_permissions db;
     users := users db; user_groups := user_groups db;
     sellers := sellers db |}.

Definition set_group_permissions (db : DB) (x : list (Z * Z)) : DB :=
  {| tags := tags db; tag_products := tag_products db;
     products := products db; units := units db; unitimages := unitimages db;
     properties := properties db; propertyvalues := propertyvalues db;
     value_units := value_units db; orders := orders db;
     orderunits := orderunits db; permissions := permissions db;
     groups := groups db; group_permissions := x;
     users := users db; user_groups := user_groups db;
     sellers := sellers db |}.

Definition set_users (db : DB) (x : list User) : DB :=
  {| tags := tags db; tag_products := tag_products db;
     products := products db; units := units db; unitimages := unitimages db;
     properties := properties db; propertyvalues := propertyvalues db;
     value_units := value_units db; orders := orders db;
     orderunits := orderunits db; permissions := permissions db;
     groups := groups db; group_permissions := group_permissions db;
     users := x; user_groups := user_groups db;
     sellers := sellers db |}.

Definition set_user_groups (db : DB) (x : list (Z * Z)) : DB :=
  {| tags := tags db; tag_products := tag_products db;
     products := products db; units := units db; unitimages := unitimages db;
     properties := properties db; propertyvalues := propertyvalues db;
     value_units := value_units db; orders := orders db;
     orderunits := orderunits db; permissions := permissions db;
     groups := groups db; group_permissions := group_permissions db;
     users := users db; user_groups := x;
     sellers := sellers db |}.

Definition set_sellers (db : DB) (x : list Seller) : DB :=
  {| tags := tags db; tag_products := tag_products db;
     products := products db; units := units db; unitimages := unitimages db;
     properties := properties db; propertyvalues := propertyvalues db;
     value_units := value_units db; orders := orders db;
     orderunits := orderunits db; permissions := permissions db;
     groups := groups db; group_permissions := group_permissions db;
     users := users db; user_groups := user_groups db;
     sellers := x |}.

Definition pair_eqb (a b : Z * Z) : bool :=
  (fst a =? fst b) && (snd a =? snd b).

(** ** Relations between the models *)

Module Related.

(** [product.tag_set.all()] *)
Definition tag_set (db : DB) (obj : Product) : list Tag :=
  filter (fun t => existsb (pair_eqb (tag_id t, product_id obj))
                           (tag_products db))
         (tags db).

(** [product.unit_set.all()] *)
Definition unit_set (db : DB) (obj : Product) : list Unit :=
  filter (fun u => unit_product u =? product_id obj) (units db).

(** [unit.unitimage_set.all()] *)
Definition unitimage_set (db : DB) (obj : Unit) : list UnitImage :=
  filter (fun i => image_unit i =? unit_id obj) (unitimages db).

(** [unit.value_set.all()] *)
Definition value_set (db : DB) (obj : Unit) : list PropertyValue :=
  filter (fun v => existsb (pair_eqb (value_id v, unit_id obj))
                           (value_units db))
         (propertyvalues db).

(** [property.propertyvalue_set.all()] *)
Definition propertyvalue_set (db : DB) (obj : Property)
  : list PropertyValue :=
  filter (fun v => value_property v =? property_id obj) (propertyvalues db).

(** [order.orderunit_set.all()] *)
Definition orderunit_set (db : DB) (obj : Order) : list OrderUnit :=
  filter (fun ou => orderunit_order ou =? order_id obj) (orderunits db).

(** Modelled from the spec: [models.py] is not part of the sources, so the
    declaration behind [order.unit_set] is.  The spec gives Order "has many
    OrderUnits" and OrderUnit "references Unit": the accessor is the
    many-to-many relation between Order and Unit that goes through
    OrderUnit, one row per line item of the order joined with the unit it
    references. *)
Definition order_unit_set (db : DB) (obj : Order) : list Unit :=
  flat_map (fun ou => filter (fun u => unit_id u =? orderunit_unit ou)
                             (units db))
           (orderunit_set db obj).

(** [property_value.property] *)
Definition value_property_obj (db : DB) (v : PropertyValue)
  : result Property :=
  QuerySet.get (fun p => property_id p =? value_property v) (properties db).

(** [unit.product] *)
Definition unit_product_obj (db : DB) (u : Unit) : result Product :=
  QuerySet.get (fun p => product_id p =? unit_product u) (products db).

(** [order_unit.unit] *)
Definition orderunit_unit_obj (db : DB) (ou : OrderUnit) : result Unit :=
  QuerySet.get (fun u => unit_id u =? orderunit_unit ou) (units db).

End Related.

(** ** Serializers *)

(** What [ModelSerializer] does with [Meta.fields]: every name, in order,
    is looked up among the fields declared on the class (or inherited), then
    among the columns of the model; the representation is the ordered
    dictionary of the values. *)
Module ModelSerializer.

Definition field {A} (declared : string -> option (A -> result value))
    (column : string -> option (A -> value)) (name : string) (obj : A)
  : result value :=
  match declared name with
  | Some f => f obj
  | None =>
      match column name with
      | Some c => Ok (c obj)
      | None => Raise ImproperlyConfigured
      end
  end.

Definition data {A} (declared : string -> option (A -> result value))
    (column : string -> option (A -> value)) (fields : list string)
    (obj : A) : result (list (string * value)) :=
  map_result
    (fun name =>
       (let? v := field declared column name obj in Ok (name, v))%result)
    fields.

Definition to_representation {A}
    (declared : string -> option (A -> result value))
    (column : string -> option (A -> value)) (fields : list string)
    (obj : A) : result value :=
  (let? d := data declared column fields obj in Ok (VDict d))%result.

(** A nested serializer with [many=True]. *)
Definition many {A} (to_repr : A -> result value) (objs : list A)
  : result value :=
  (let? l := map_result to_repr objs in Ok (VList l))%result.

End ModelSerializer.

(** The columns of the models, as model fields render them. *)
Definition Product_column (name : string) : option (Product -> value) :=
  match name with
  | "id" => Some (fun p => VInt (product_id p))
  | "title" => Some (fun p => VStr (title p))
  | "description" => Some (fun p => VStr (description p))
  | _ => None
  end.

Definition Unit_column (name : string) : option (Unit -> value) :=
  match name with
  | "id" => Some (fun u => VInt (unit_id u))
  | "sku" => Some (fun u => VStr (sku u))
  | "price" => Some (fun u => VDecimal (price u))
  | "num_in_stock" => Some (fun u => VInt (num_in_stock u))
  | "product" => Some (fun u => VInt (unit_product u))
  | _ => None
  end.

Definition Order_column (name : string) : option (Order -> value) :=
  match name with
  | "id" => Some (fun o => VInt (order_id o))
  | "created_at" => Some (fun o => VStr (created_at o))
  | "name" => Some (fun o => VStr (order_name o))
  | "address" => Some (fun o => VStr (order_address o))
  | "phone" => Some (fun o => VStr (order_phone o))
  | _ => None
  end.

Module TagSerializer.

Definition to_representation (instance : Tag) : value :=
  VStr (tag_name instance).

End TagSerializer.

Module PropertySerializer.

Definition to_representation (db : DB) (instance : Property) : value :=
  VDict
    [("name", VStr (property_name instance));
     ("values",
      VList (map (fun v => VDict [("id", VInt (value_id v));
                                  ("value", VStr (value_value v))])
                 (Related.propertyvalue_set db instance)))].

End PropertySerializer.

Module UnitSerializer.

Definition fields : list string :=
  ["sku"; "price"; "properties"; "images"; "num_in_stock"].

Definition get_properties (db : DB) (obj : Unit) : result value :=
  (let? l :=
     map_result
       (fun property_value =>
          let? property := Related.value_property_obj db property_value in
          Ok (VDict [("name", VStr (property_name property));
                     ("value", VStr (value_value property_value))]))
       (Related.value_set db obj) in
   Ok (VList l))%result.

Definition get_images (db : DB) (obj : Unit) : value :=
  let images := Related.unitimage_set db obj in
  if QuerySet.exists_ images
  then VList (map (fun image => VStr (image_url image)) images)
  else VList [].

Definition declared (db : DB) (name : string)
  : option (Unit -> result value) :=
  match name with
  | "properties" => Some (get_properties db)
  | "images" => Some (fun obj => Ok (get_images db obj))
  | _ => None
  end.

Definition to_representation (db : DB) (obj : Unit) : result value :=
  ModelSerializer.to_representation (declared db) Unit_column fields obj.

End UnitSerializer.

(** The sort key of [order_by('-is_main')]: flagged rows first. *)
Definition is_main_desc (image : UnitImage) : Z :=
  if is_main image then 0 else 1.

Module ProductListSerializer.

Definition fields : list string :=
  ["id"; "title"; "tags"; "prices"; "image"].

Definition get_prices (db : DB) (obj : Product) : value :=
  let prices := map price (Related.unit_set db obj) in
  let as_value (x : option Z) :=
    match x with Some z => VDecimal z | None => VNone end in
  VDict [("min", as_value (QuerySet.aggregate_min prices));
         ("max", as_value (QuerySet.aggregate_max prices))].

(** [filter(unitimage__isnull=False)] joins the units with their images:
    one row per image, each carrying its unit.  [first()] on this
    unordered query set orders the rows by primary key. *)
Definition get_image (db : DB) (obj : Product) : value :=
  let joined :=
    flat_map (fun u => map (fun _ => u) (Related.unitimage_set db u))
             (Related.unit_set db obj) in
  match QuerySet.first (QuerySet.order_by unit_id joined) with
  | None => VNone
  | Some unit =>
      match QuerySet.first
              (QuerySet.order_by is_main_desc
                                 (Related.unitimage_set db unit)) with
      | None => VNone
      | Some image => VStr (image_url image)
      end
  end.

Definition tags (db : DB) (obj : Product) : result value :=
  ModelSerializer.many (fun t => Ok (TagSerializer.to_representation t))
                       (Related.tag_set db obj).

Definition declared (db : DB) (name : string)
  : option (Product -> result value) :=
  match name with
  | "tags" => Some (tags db)
  | "prices" => Some (fun obj => Ok (get_prices db obj))
  | "image" => Some (fun obj => Ok (get_image db obj))
  | _ => None
  end.

Definition to_representation (db : DB) (obj : Product) : result value :=
  ModelSerializer.to_representation (declared db) Product_column fields obj.

End ProductListSerializer.

(** Inherits the declared fields of the list serializer and adds [units];
    its own [Meta.fields] chooses what is rendered. *)
Module ProductSerializer.

Definition fields : list string :=
  ["id"; "title"; "tags"; "description"; "units"].

Definition units (db : DB) (obj : Product) : result value :=
  ModelSerializer.many (UnitSerializer.to_representation db)
                       (Related.unit_set db obj).

Definition declared (db : DB) (name : string)
  : option (Product -> result value) :=
  match name with
  | "units" => Some (units db)
  | _ => ProductListSerializer.declared db name
  end.

Definition to_representation (db : DB) (obj : Product) : result value :=
  ModelSerializer.to_representation (declared db) Product_column fields obj.

End ProductSerializer.

Module OrderListSerializer.

Definition fields : list string := ["id"; "created_at"; "units_num"].

Definition get_units_num (db : DB) (obj : Order) : value :=
  VInt (QuerySet.count (Related.order_unit_set db obj)).

Definition declared (db : DB) (name : string)
  : option (Order -> result value) :=
  match name with
  | "units_num" => Some (fun obj => Ok (get_units_num db obj))
  | _ => None
  end.

Definition to_representation (db : DB) (obj : Order) : result value :=
  ModelSerializer.to_representation (declared db) Order_column fields obj.

End OrderListSerializer.

Module UnitForOrderDetail.

Definition fields : list string :=
  ["title"; "properties"; "image"; "product_id"; "price"; "sku"].

Definition get_properties (db : DB) (obj : Unit) : result value :=
  (let? l :=
     map_result
       (fun property_value =>
          let? property := Related.value_property_obj db property_value in
          Ok (VDict [("name", VStr (property_name property));
                     ("value", VStr (value_value property_value))]))
       (Related.value_set db obj) in
   Ok (VList l))%result.

Definition get_image (db : DB) (obj : Unit) : value :=
  match QuerySet.first
          (QuerySet.order_by is_main_desc (Related.unitimage_set db obj)) with
  | None => VNone
  | Some image => VStr (image_url image)
  end.

Definition declared (db : DB) (name : string)
  : option (Unit -> result value) :=
  match name with
  | "title" =>
      Some (fun obj => (let? product := Related.unit_product_obj db obj in
                        Ok (VStr (title product)))%result)
  | "properties" => Some (get_properties db)
  | "image" => Some (fun obj => Ok (get_image db obj))
  | "product_id" =>
      Some (fun obj => (let? product := Related.unit_product_obj db obj in
                        Ok (VInt (product_id product)))%result)
  | _ => None
  end.

Definition data (db : DB) (obj : Unit) : result (list (string * value)) :=
  ModelSerializer.data (declared db) Unit_column fields obj.

End UnitForOrderDetail.

Definition OrderUnit_column (name : string) : option (OrderUnit -> value) :=
  match name with
  | "id" => Some (fun ou => VInt (orderunit_id ou))
  | "order" => Some (fun ou => VInt (orderunit_order ou))
  | "unit" => Some (fun ou => VInt (orderunit_unit ou))
  | "quantity" => Some (fun ou => VInt (quantity ou))
  | "unit_price" => Some (fun ou => VDecimal (unit_price ou))
  | _ => None
  end.

Module OrderUnitSerializer.

Definition get_unit (db : DB) (obj : OrderUnit) : result value :=
  (let? unit := Related.orderunit_unit_obj db obj in
   let? data := UnitForOrderDetail.data db unit in
   (* Use the price that was at the moment of purchase. *)
   let data := dict_set "price" (VDecimal (unit_price obj)) data in
   Ok (VDict data))%result.

Definition fields : list string := ["quantity"; "status"; "unit"].

(** [obj.get_status_display()]: the label of the status among the choices
    of the model.  The choices are declared in [models.py]; they are taken
    here as the function [status_display] from stored values to labels. *)
Definition get_status (status_display : Z -> string) (obj : OrderUnit)
  : value :=
  VStr (status_display (status obj)).

Definition declared (status_display : Z -> string) (db : DB) (name : string)
  : option (OrderUnit -> result value) :=
  match name with
  | "unit" => Some (get_unit db)
  | "status" => Some (fun obj => Ok (get_status status_display obj))
  | _ => None
  end.

Definition to_representation (status_display : Z -> string) (db : DB)
    (obj : OrderUnit) : result value :=
  ModelSerializer.to_representation (declared status_display db)
                                    OrderUnit_column fields obj.

End OrderUnitSerializer.

Module OrderSerializer.

Definition fields : list string := ["name"; "address"; "phone"].

Definition to_representation (obj : Order) : result value :=
  ModelSerializer.to_representation (fun _ => None) Order_column fields obj.

End OrderSerializer.

Module OrderDetailSerializer.

Definition fields : list string :=
  ["id"; "created_at"; "name"; "address"; "phone"; "units"].

Definition units (status_display : Z -> string) (db : DB) (obj : Order)
  : result value :=
  ModelSerializer.many (OrderUnitSerializer.to_representation status_display db)
                       (Related.orderunit_set db obj).

Definition declared (status_display : Z -> string) (db : DB) (name : string)
  : option (Order -> result value) :=
  match name with
  | "units" => Some (units status_display db)
  | _ => None
  end.

Definition to_representation (status_display : Z -> string) (db : DB)
    (obj : Order) : result value :=
  ModelSerializer.to_representation (declared status_display db)
                                    Order_column fields obj.

End OrderDetailSerializer.

Module CartUnitSerializer.

(** The field-validated values that reach [validate]. *)
Record Data := { data_sku : string; data_quantity : Z }.

(** [quantity = IntegerField(default=1, min_value=1)] on what the request
    carries for it, if anything. *)
Definition quantity_field (submitted : option Z) : result Z :=
  match submitted with
  | None => Ok 1
  | Some q =>
      if q <? 1
      then Raise (ValidationError
                    "Ensure this value is greater than or equal to 1.")
      else Ok q
  end.

Definition validate (db : DB) (data : Data) : result Data :=
  let sku' := data_sku data in
  let quantity' := data_quantity data in
  match QuerySet.get (fun u => String.eqb (sku u) sku') (units db) with
  | Raise ObjectDoesNotExist => Raise (ValidationError "Unit does not exist")
  | Raise e => Raise e
  | Ok unit =>
      if num_in_stock unit <? quantity'
      then Raise (ValidationError "There are not enough units in stock")
      else Ok data
  end.

End CartUnitSerializer.

(** ** Statements that write to the store

    A statement runs on a store and leaves a store together with a value or
    a raised exception.  Nothing rolls back: what was written before an
    exception stays written. *)

Definition M (A : Type) : Type := DB -> DB * result A.

Definition ret {A} (a : A) : M A := fun db => (db, Ok a).

Definition bind {A B} (m : M A) (f : A -> M B) : M B :=
  fun db =>
    match m db with
    | (db', Ok a) => f a db'
    | (db', Raise e) => (db', Raise e)
    end.

Declare Scope stmt_scope.
Delimit Scope stmt_scope with stmt.
Notation "x <- m ;; k" := (bind m (fun x => k))
  (at level 61, m at next level, right associativity) : stmt_scope.
Notation "m ;; k" := (bind m (fun _ => k))
  (at level 61, right associativity) : stmt_scope.

(** [for x in l: body] *)
Fixpoint for_each {A} (l : list A) (body : A -> M unit) : M unit :=
  match l with
  | [] => ret tt
  | x :: l' => (body x ;; for_each l' body)%stmt
  end.

Module Manager.

(** [Group.objects.get(name=...)] *)
Definition Group_get (name : string) : M Group :=
  fun db =>
    (db, QuerySet.get (fun g => String.eqb (group_name g) name) (groups db)).

(** [Group.objects.create(name=...)]; the name column is unique. *)
Definition Group_create (name : string) : M Group :=
  fun db =>
    if existsb (fun g => String.eqb (group_name g) name) (groups db)
    then (db, Raise IntegrityError)
    else
      let g := {| group_id := QuerySet.next_id (map group_id (groups db));
                  group_name := name |} in
      (set_groups db (groups db ++ [g]), Ok g).

(** [Permission.objects.get(codename=...)] *)
Definition Permission_get (codename : string) : M Permission :=
  fun db =>
    (db, QuerySet.get
           (fun p => String.eqb (permission_codename p) codename)
           (permissions db)).

(** [group.permissions.add(permission)]: a link that is there already is
    not added again. *)
Definition permissions_add (group : Group) (permission : Permission)
  : M unit :=
  fun db =>
    let row := (group_id group, permission_id permission) in
    if existsb (pair_eqb row) (group_permissions db)
    then (db, Ok tt)
    else (set_group_permissions db (group_permissions db ++ [row]), Ok tt).

(** [User.objects.create(email=..., username=...)]; the username column
    is unique. *)
Definition User_create (email username : string) : M User :=
  fun db =>
    if existsb (fun u => String.eqb (user_username u) username) (users db)
    then (db, Raise IntegrityError)
    else
      let u := {| user_id := QuerySet.next_id (map user_id (users db));
                  user_username := username;
                  user_email := email;
                  user_password := NoPassword |} in
      (set_users db (users db ++ [u]), Ok u).

(** [user.groups.add(group)] *)
Definition groups_add (user : User) (group : Group) : M unit :=
  fun db =>
    let row := (user_id user, group_id group) in
    if existsb (pair_eqb row) (user_groups db)
    then (db, Ok tt)
    else (set_user_groups db (user_groups db ++ [row]), Ok tt).

(** [user.set_password(raw)]: changes the object, not the store. *)
Definition set_password (user : User) (raw : string) : User :=
  {| user_id := user_id user;
     user_username := user_username user;
     user_email := user_email user;
     user_password := Hashed raw |}.

(** [user.save()]: updates the row with the object's primary key, or
    inserts the object when there is none. *)
Definition User_save (user : User) : M unit :=
  fun db =>
    if existsb (fun u => user_id u =? user_id user) (users db)
    then (set_users db
            (map (fun u => if user_id u =? user_id user then user else u)
                 (users db)),
          Ok tt)
    else (set_users db (users db ++ [user]), Ok tt).

(** [Seller.objects.create(user=..., name=..., address=...)]; a user has
    at most one seller. *)
Definition Seller_create (user : User) (name address : string) : M Seller :=
  fun db =>
    if existsb (fun s => seller_user s =? user_id user) (sellers db)
    then (db, Raise IntegrityError)
    else
      let s := {| seller_id := QuerySet.next_id (map seller_id (sellers db));
                  seller_user := user_id user;
                  seller_name := name;
                  seller_address := address |} in
      (set_sellers db (sellers db ++ [s]), Ok s).

End Manager.

Module UserSerializer.

(** [validated_data] *)
Record Data := { data_email : string; data_password : string }.

(** The validator of the [email] field,
    [UniqueValidator(queryset=User.objects.all())]: the value is refused
    when a user of the query set has it. *)
Definition email_validator (db : DB) (value : string) : result string :=
  if QuerySet.exists_
       (filter (fun u => String.eqb (user_email u) value) (users db))
  then Raise (ValidationError "This field must be unique.")
  else Ok value.

Definition create (validated_data : Data) : M User :=
  (user <- Manager.User_create (data_email validated_data)
                               (data_email validated_data) ;;
   let user := Manager.set_password user (data_password validated_data) in
   Manager.User_save user ;;
   ret user)%stmt.

End UserSerializer.

Module SellerSerializer.

(** [validated_data] *)
Record Data :=
  { data_email : string;
    data_password : string;
    data_seller_name : string;
    data_seller_address : string }.

Definition all_permissions : list string := ["add"; "change"; "delete"].

Definition content_types : list (string * list string) :=
  [("unit", all_permissions);
   ("product", all_permissions);
   ("unitimage", all_permissions);
   ("orderunit", all_permissions);
   ("order", ["change"]);
   ("property", ["add"]);
   ("propertyvalue", ["add"])].

(** ['{}_{}'.format(permission, content_type)] *)
Definition format_codename (permission content_type : string) : string :=
  String.append permission (String.append "_" content_type).

(** Get staff group with seller permissions or create if does not
    exist. *)
Definition get_staff_group : M Group :=
  fun db =>
    match Manager.Group_get "Staff" db with
    | (db', Ok found) => (db', Ok found)
    | (db', Raise ObjectDoesNotExist) =>
        (group <- Manager.Group_create "Staff" ;;
         for_each content_types
           (fun content_type =>
              for_each (snd content_type)
                (fun permission =>
                   let codename :=
                     format_codename permission (fst content_type) in
                   permission <- Manager.Permission_get codename ;;
                   Manager.permissions_add group permission)) ;;
         ret group)%stmt db'
    | (db', Raise e) => (db', Raise e)
    end.

Definition create (validated_data : Data) : M User :=
  (user <- Manager.User_create (data_email validated_data)
                               (data_email validated_data) ;;
   staff_group <- get_staff_group ;;
   Manager.groups_add user staff_group ;;
   let user := Manager.set_password user (data_password validated_data) in
   Manager.User_save user ;;
   Manager.Seller_create user (data_seller_name validated_data)
                         (data_seller_address validated_data) ;;
   ret user)%stmt.

End SellerSerializer.

(** ** The route table ([urls.py]) *)

Module Urls.

(** What the module reads of its environment when it is imported: the
    directory listing, the directory test, and which modules can be
    imported. *)
Record Env :=
  { listdir : string -> result (list string);
    isdir : string -> bool;
    importable : string -> bool }.

Definition sep : string := "/".

Fixpoint endswith_sep (s : string) : bool :=
  match s with
  | EmptyString => false
  | String c EmptyString => Ascii.eqb c "/"%char
  | String _ s' => endswith_sep s'
  end.

(** [os.path.join] on two components. *)
Definition join2 (path b : string) : string :=
  if String.prefix sep b then b
  else if String.eqb path "" || endswith_sep path then String.append path b
  else String.append path (String.append sep b).

(** [os.path.join(a, *p)] *)
Definition join (a : string) (p : list string) : string :=
  fold_left join2 p a.

Definition API_DIR : string := "restshop/api/".

Definition entities (env : Env) (BASE_DIR : string) : result (list string) :=
  (let? names := listdir env (join BASE_DIR [API_DIR]) in
   Ok (filter
         (fun directory =>
            isdir env (join BASE_DIR [API_DIR; directory])
            && negb (String.eqb directory "__pycache__"))
         names))%result.

(** An entry of [urlpatterns]: the pattern and the route table it
    includes. *)
Record URLPattern := { regex : string; urlconf_module : string }.

(** [include(module)] imports the module. *)
Definition include (env : Env) (module : string) : result string :=
  if importable env module then Ok module else Raise ImportError.

Definition url (regex' : string) (view : string) : URLPattern :=
  {| regex := regex'; urlconf_module := view |}.

(** ['restshop.api.{}.urls'.format(entity)] *)
Definition format_urls (entity : string) : string :=
  String.append "restshop.api." (String.append entity ".urls").

(** The modules that the [import] statements at the top of [urls.py] load,
    in their order ([os] and [os.path] belong to the interpreter).  Among
    them are the views of the cart application and the settings, which
    give [BASE_DIR]. *)
Definition imports : list string :=
  ["django.conf.urls";
   "rest_framework";
   "restshop.api.cart.views";
   "restshop_project.settings";
   "rest_framework_swagger.views"].

(** An [import] statement: [ImportError] when the module, or the name taken
    from it, cannot be imported. *)
Definition import_module (env : Env) (module : string) : result string :=
  if importable env module then Ok module else Raise ImportError.

(** The module runs its imports, then lists the API directory, then builds
    [urlpatterns]. *)
Definition urlpatterns (env : Env) (BASE_DIR : string)
  : result (list URLPattern) :=
  (let? imported := map_result (import_module env) imports in
   let? entities' := entities env BASE_DIR in
   map_result
     (fun entity =>
        let? included := include env (format_urls entity) in
        Ok (url "^" included))
     entities')%result.

End Urls.

(** ** A small shop, for running the definitions *)

Module Shop.

Definition fixed_permissions : list Permission :=
  [ {| permission_id := 1; permission_codename := "add_unit" |};
    {| permission_id := 2; permission_codename := "change_unit" |};
    {| permission_id := 3; permission_codename := "delete_unit" |};
    {| permission_id := 4; permission_codename := "add_product" |};
    {| permission_id := 5; permission_codename := "change_product" |};
    {| permission_id := 6; permission_codename := "delete_product" |};
    {| permission_id := 7; permission_codename := "add_unitimage" |};
    {| permission_id := 8; permission_codename := "change_unitimage" |};
    {| permission_id := 9; permission_codename := "delete_unitimage" |};
    {| permission_id := 10; permission_codename := "add_orderunit" |};
    {| permission_id := 11; permission_codename := "change_orderunit" |};
    {| permission_id := 12; permission_codename := "delete_orderunit" |};
    {| permission_id := 13; permission_codename := "change_order" |};
    {| permission_id := 14; permission_codename := "add_property" |};
    {| permission_id := 15; permission_codename := "add_propertyvalue" |};
    {| permission_id := 16; permission_codename := "add_order" |} ].

Definition shirt : Product :=
  {| product_id := 1; title := "T-shirt"; description := "Cotton t-shirt" |}.
Definition mug : Product :=
  {| product_id := 2; title := "Mug"; description := "Ceramic mug" |}.
Definition poster : Product :=
  {| product_id := 3; title := "Poster"; description := "" |}.

Definition shirt_s : Unit :=
  {| unit_id := 1; sku := "TS-S"; price := 1500; num_in_stock := 3;
     unit_product := 1 |}.
Definition shirt_m : Unit :=
  {| unit_id := 2; sku := "TS-M"; price := 1200; num_in_stock := 0;
     unit_product := 1 |}.
Definition mug_1 : Unit :=
  {| unit_id := 3; sku := "MUG-1"; price := 700; num_in_stock := 5;
     unit_product := 2 |}.

Definition mug_2 : Unit :=
  {| unit_id := 4; sku := "MUG-2"; price := 900; num_in_stock := 1;
     unit_product := 2 |}.

Definition order_1 : Order :=
  {| order_id := 1; created_at := "2017-05-01T10:00:00Z";
     order_name := "Ann"; order_address := "1 Main St";
     order_phone := "555-0100" |}.

Definition line_1 : OrderUnit :=
  {| orderunit_id := 1; orderunit_order := 1; orderunit_unit := 1;
     quantity := 2; status := 0; unit_price := 1400 |}.
Definition line_2 : OrderUnit :=
  {| orderunit_id := 2; orderunit_order := 1; orderunit_unit := 3;
     quantity := 1; status := 0; unit_price := 700 |}.

Definition db : DB :=
  {| tags := [ {| tag_id := 1; tag_name := "summer" |};
               {| tag_id := 2; tag_name := "sale" |} ];
     tag_products := [(1, 1); (2, 1); (2, 2)];
     products := [shirt; mug; poster];
     units := [shirt_s; shirt_m; mug_1; mug_2];
     unitimages :=
       [ {| image_id := 1; image_url := "/media/ts-s-side.jpg";
            is_main := false; image_unit := 1 |};
         {| image_id := 2; image_url := "/media/ts-m-front.jpg";
            is_main := true; image_unit := 2 |};
         {| image_id := 3; image_url := "/media/ts-m-back.jpg";
            is_main := false; image_unit := 2 |};
         {| image_id := 4; image_url := "/media/mug-side.jpg";
            is_main := false; image_unit := 3 |};
         {| image_id := 5; image_url := "/media/mug-main.jpg";
            is_main := true; image_unit := 3 |} ];
     properties := [ {| property_id := 1; property_name := "Size" |};
                     {| property_id := 2; property_name := "Color" |} ];
     propertyvalues :=
       [ {| value_id := 1; value_value := "S"; value_property := 1 |};
         {| value_id := 2; value_value := "M"; value_property := 1 |};
         {| value_id := 3; value_value := "White"; value_property := 2 |} ];
     value_units := [(1, 1); (2, 2); (3, 1); (3, 2); (3, 3); (3, 4)];
     orders := [order_1];
     orderunits := [line_1; line_2];
     permissions := fixed_permissions;
     groups := [];
     group_permissions := [];
     users := [];
     user_groups := [];
     sellers := [] |}.

(** The same shop where a group named Staff exists already, with no
    permission linked to it. *)
Definition db_with_bare_staff : DB :=
  set_groups db [ {| group_id := 1; group_name := "Staff" |} ].

(** The same shop before the permissions of the models were installed. *)
Definition db_uninstalled : DB :=
  {| tags := tags db; tag_products := tag_products db;
     products := products db; units := units db;
     unitimages := unitimages db; properties := properties db;
     propertyvalues := propertyvalues db; value_units := value_units db;
     orders := orders db; orderunits := orderunits db;
     permissions := [ {| permission_id := 16;
                         permission_codename := "add_order" |} ];
     groups := []; group_permissions := []; users := [];
     user_groups := []; sellers := [] |}.

Definition ann : SellerSerializer.Data :=
  {| SellerSerializer.data_email := "ann@example.com";
     SellerSerializer.data_password := "s3cret";
     SellerSerializer.data_seller_name := "Ann";
     SellerSerializer.data_seller_address := "1 Main St" |}.

Definition bob : SellerSerializer.Data :=
  {| SellerSerializer.data_email := "bob@example.com";
     SellerSerializer.data_password := "hunter2";
     SellerSerializer.data_seller_name := "Bob";
     SellerSerializer.data_seller_address := "2 Side St" |}.

(** Labels for the stored status values. *)
Definition status_display (s : Z) : string :=
  if s =? 0 then "Pending" else if s =? 1 then "Shipped" else "Delivered".

(** A deployment: the API directory holds three applications, the
    cache directory of the interpreter and a plain file. *)
Definition base_dir : string := "/srv/shop".

Definition env : Urls.Env :=
  {| Urls.listdir :=
       fun path =>
         if String.eqb path "/srv/shop/restshop/api/"
         then Ok ["cart"; "__pycache__"; "products"; "__init__.py";
                  "orders"]
         else Raise OSError;
     Urls.isdir :=
       fun path =>
         existsb (String.eqb path)
                 ["/srv/shop/restshop/api/cart";
                  "/srv/shop/restshop/api/__pycache__";
                  "/srv/shop/restshop/api/products";
                  "/srv/shop/restshop/api/orders"];
     Urls.importable :=
       fun module =>
         existsb (String.eqb module)
                 (Urls.imports ++
                  ["restshop.api.cart.urls";
                   "restshop.api.products.urls";
                   "restshop.api.orders.urls"]) |}.

(** The same deployment without the cart application. *)
Definition env_without_cart : Urls.Env :=
  {| Urls.listdir :=
       fun path =>
         if String.eqb path "/srv/shop/restshop/api/"
         then Ok ["__pycache__"; "products"; "__init__.py"; "orders"]
         else Raise OSError;
     Urls.isdir :=
       fun path =>
         existsb (String.eqb path)
                 ["/srv/shop/restshop/api/__pycache__";
                  "/srv/shop/restshop/api/products";
                  "/srv/shop/restshop/api/orders"];
     Urls.importable :=
       fun module =>
         existsb (String.eqb module)
                 ["django.conf.urls";
                  "rest_framework";
                  "restshop_project.settings";
                  "rest_framework_swagger.views";
                  "restshop.api.products.urls";
                  "restshop.api.orders.urls"] |}.

End Shop.

(** ** Vocabulary of the properties *)

(** The foreign key of every property value of the unit resolves. *)
Definition values_resolve (db : DB) (u : Unit) : Prop :=
  forall v, In v (Related.value_set db u) ->
            exists p, Related.value_property_obj db v = Ok p.

(** The store after the prices of its units were changed: every unit [u]
    now costs [f u]; no other column and no other table is touched. *)
Definition reprice (f : Unit -> Z) (db : DB) : DB :=
  set_units db
    (map (fun u => {| unit_id := unit_id u; sku := sku u; price := f u;
                      num_in_stock := num_in_stock u;
                      unit_product := unit_product u |})
         (units db)).

(** The codenames [get_staff_group] asks for, in the order of its loops. *)
Definition fixed_codenames : list string :=
  flat_map (fun content_type =>
              map (fun permission =>
                     SellerSerializer.format_codename permission
                                                      (fst content_type))
                  (snd content_type))
           SellerSerializer.content_types.

(** The group is linked to a permission of the store with this codename. *)
Definition has_permission (db : DB) (g : Group) (codename : string) : bool :=
  existsb (fun p => String.eqb (permission_codename p) codename
                    && existsb (pair_eqb (group_id g, permission_id p))
                               (group_permissions db))
          (permissions db).

(** The group carries the full fixed permission set. *)
Definition carries_fixed_set (db : DB) (g : Group) : bool :=
  forallb (has_permission db g) fixed_codenames.

(** The groups named Staff. *)
Definition staff_groups (db : DB) : list Group :=
  filter (fun g => String.eqb (group_name g) "Staff") (groups db).

(** Every group named Staff that the store has carries the full fixed
    permission set (in particular: the store has no group named Staff). *)
Definition staff_ready (db : DB) : Prop :=
  forall g, In g (staff_groups db) -> carries_fixed_set db g = true.

(** The tables the Staff group lives in. *)
Definition auth_view (db : DB) : list Group * list Permission * list (Z * Z) :=
  (groups db, permissions db, group_permissions db).

(** One round of the inner loop of [get_staff_group]. *)
Definition grant (group : Group) (content_type permission : string)
  : M unit :=
  (permission <- Manager.Permission_get
                   (SellerSerializer.format_codename permission content_type) ;;
   Manager.permissions_add group permission)%stmt.

(** The store has exactly one permission for each of the fixed
    codenames. *)
Definition permissions_installed (db : DB) : Prop :=
  forall c, In c fixed_codenames ->
    exists p, filter (fun p => String.eqb (permission_codename p) c)
                     (permissions db) = [p].

(** The test [urls.py] applies to an entry of the API directory. *)
Definition is_entity (env : Urls.Env) (BASE_DIR directory : string) : bool :=
  Urls.isdir env (Urls.join BASE_DIR [Urls.API_DIR; directory])
  && negb (String.eqb directory "__pycache__").

(** The entry of the route table for an application: its own route table,
    included under the root prefix. *)
Definition root_include (entity : string) : Urls.URLPattern :=
  Urls.url "^" (Urls.format_urls entity).

(** The store only gained links between groups and permissions. *)
Definition gains_links (db db' : DB) : Prop :=
  groups db' = groups db
  /\ permissions db' = permissions db
  /\ incl (group_permissions db) (group_permissions db').

(** [l'] is [l] with rows added after it. *)
Definition extends_rows {A} (l l' : list A) : Prop :=
  exists added, l' = l ++ added.

(** The tables of the catalogue and of the orders, and the permissions. *)
Definition catalogue (db : DB) :=
  (tags db, tag_products db, products db, units db, unitimages db,
   properties db, propertyvalues db, value_units db, orders db,
   orderunits db, permissions db).

(** Beside the users, the store only gained rows: groups, links between
    groups and permissions, links between users and groups, sellers. *)
Definition adds_beside_users (db db' : DB) : Prop :=
  catalogue db' = catalogue db
  /\ extends_rows (groups db) (groups db')
  /\ extends_rows (group_permissions db) (group_permissions db')
  /\ extends_rows (user_groups db) (user_groups db')
  /\ extends_rows (sellers db) (sellers db').

(** The same, with the users as they were. *)
Definition adds_no_user (db db' : DB) : Prop :=
  adds_beside_users db db' /\ users db' = users db.

(** No fixed codename has two permissions in the store. *)
Definition permissions_unambiguous (db : DB) : Prop :=
  forall c, In c fixed_codenames ->
    (List.length (filter (fun p => String.eqb (permission_codename p) c)
                         (permissions db)) <= 1)%nat.

(** Every stored account has its email as username. *)
Definition username_is_email (db : DB) : Prop :=
  forall u, In u (users db) -> user_username u = user_email u.

(** The account that [User.objects.create] inserts for an email, with the
    password it has at that point of [create]. *)
Definition new_user (db : DB) (email : string) (pw : Password) : User :=
  {| user_id := QuerySet.next_id (map user_id (users db));
     user_username := email;
     user_email := email;
     user_password := pw |}.

(** * Properties *)

(** ** Facts about query sets *)

Section QuerySetFacts.

Context {A : Type}.

Lemma get_Ok_inv (p : A -> bool) (rows : list A) (x : A) :
  QuerySet.get p rows = Ok x -> filter p rows = [x].
Proof.
  unfold QuerySet.get.
  destruct (filter p rows) as [|y [|z l]]; intros H; inversion H.
  reflexivity.
Qed.

Lemma get_Ok_intro (p : A -> bool) (rows : list A) (x : A) :
  filter p rows = [x] -> QuerySet.get p rows = Ok x.
Proof. unfold QuerySet.get. intros ->. reflexivity. Qed.

Lemma first_insert_by (key : A -> Z) (x : A) (l : list A) :
  QuerySet.first (QuerySet.insert_by key x l) =
  match QuerySet.first l with
  | None => Some x
  | Some y => if key x <=? key y then Some x else Some y
  end.
Proof.
  destruct l as [|y l]; simpl; [reflexivity|].
  destruct (key x <=? key y); reflexivity.
Qed.

Lemma first_order_by_None (key : A -> Z) (l : list A) :
  QuerySet.first (QuerySet.order_by key l) = None -> l = [].
Proof.
  destruct l as [|x l]; [reflexivity|].
  unfold QuerySet.order_by. simpl. rewrite first_insert_by.
  destruct (QuerySet.first _) as [y|]; [|discriminate].
  destruct (key x <=? key y); discriminate.
Qed.

(** The first row of an ordered query set is a row of the query set, and
    no row has a smaller key. *)
Lemma first_order_by_least (key : A -> Z) (l : list A) (x : A) :
  QuerySet.first (QuerySet.order_by key l) = Some x ->
  In x l /\ forall y, In y l -> key x <= key y.
Proof.
  revert x. induction l as [|a l IH]; intros x; [discriminate|].
  unfold QuerySet.order_by. simpl. rewrite first_insert_by.
  fold (QuerySet.order_by key l).
  destruct (QuerySet.first (QuerySet.order_by key l)) as [y|] eqn:E.
  - destruct (IH y eq_refl) as [Hin Hle].
    destruct (Z.leb_spec (key a) (key y)); intros [= <-].
    + split; [now left|]. intros z [<-|Hz]; [lia|].
      specialize (Hle z Hz). lia.
    + split; [now right|]. intros z [<-|Hz]; [lia|]. now apply Hle.
  - intros [= <-]. apply first_order_by_None in E. subst l.
    split; [now left|]. intros z [<-|[]]. lia.
Qed.

End QuerySetFacts.

(** With [order_by('-is_main')], the first row is the first flagged row,
    or the first row when none is flagged. *)
Lemma first_order_by_is_main (l : list UnitImage) :
  QuerySet.first (QuerySet.order_by is_main_desc l) =
  match find is_main l with
  | Some i => Some i
  | None => hd_error l
  end.
Proof.
  induction l as [|a l IH]; [reflexivity|].
  unfold QuerySet.order_by. simpl. rewrite first_insert_by.
  fold (QuerySet.order_by is_main_desc l). rewrite IH.
  unfold is_main_desc at 1.
  destruct (is_main a) eqn:Ha.
  - destruct (find is_main l) as [i|]; [|destruct (hd_error l) as [y|]];
      try reflexivity; unfold is_main_desc;
      match goal with |- context [is_main ?z] => destruct (is_main z) end;
      reflexivity.
  - destruct (find is_main l) as [i|] eqn:Ef.
    + apply find_some in Ef. unfold is_main_desc.
      destruct Ef as [_ ->]. reflexivity.
    + destruct l as [|y l]; [reflexivity|]. simpl.
      assert (Hy : is_main y = false)
        by (apply (find_none _ _ Ef); now left).
      unfold is_main_desc. rewrite Hy. reflexivity.
Qed.

Lemma fold_left_min_least (xs : list Z) (x : Z) :
  In (fold_left Z.min xs x) (x :: xs) /\
  forall y, In y (x :: xs) -> fold_left Z.min xs x <= y.
Proof.
  revert x. induction xs as [|a xs IH]; intros x; simpl.
  - split; [now left|]. intros y [<-|[]]. lia.
  - destruct (IH (Z.min x a)) as [Hin Hle]. split.
    + destruct Hin as [Hin|Hin]; [|now right; right].
      rewrite <- Hin. destruct (Z.min_spec x a) as [[_ ->]|[_ ->]]; auto.
    + intros y Hy.
      assert (Hm : fold_left Z.min xs (Z.min x a) <= Z.min x a)
        by (apply Hle; now left).
      destruct Hy as [<-|[<-|Hy]]; [lia|lia|]. apply Hle. now right.
Qed.

Lemma fold_left_max_greatest (xs : list Z) (x : Z) :
  In (fold_left Z.max xs x) (x :: xs) /\
  forall y, In y (x :: xs) -> y <= fold_left Z.max xs x.
Proof.
  revert x. induction xs as [|a xs IH]; intros x; simpl.
  - split; [now left|]. intros y [<-|[]]. lia.
  - destruct (IH (Z.max x a)) as [Hin Hle]. split.
    + destruct Hin as [Hin|Hin]; [|now right; right].
      rewrite <- Hin. destruct (Z.max_spec x a) as [[_ ->]|[_ ->]]; auto.
    + intros y Hy.
      assert (Hm : Z.max x a <= fold_left Z.max xs (Z.max x a))
        by (apply Hle; now left).
      destruct Hy as [<-|[<-|Hy]]; [lia|lia|]. apply Hle. now right.
Qed.

(** ** Unit images (C8) *)

(** C8. The [images] field of a unit is the list of the URLs of its images,
    in particular a list and not [None]; for a unit with no image it is the
    empty list. *)
Theorem get_images_is_url_list (db : DB) (obj : Unit) :
  UnitSerializer.get_images db obj =
    VList (map (fun image => VStr (image_url image))
               (Related.unitimage_set db obj))
  /\ UnitSerializer.get_images db obj <> VNone
  /\ (Related.unitimage_set db obj = [] ->
      UnitSerializer.get_images db obj = VList []).
Proof.
  unfold UnitSerializer.get_images.
  destruct (Related.unitimage_set db obj) as [|i l]; simpl;
    repeat split; auto; discriminate.
Qed.

(** ** Prices of a product (C4) *)

(** C4. For a product with at least one unit, [prices.min] and [prices.max]
    are prices of its units, no unit is cheaper than [min] or dearer than
    [max], and with exactly one unit both are that unit's price. *)
Theorem get_prices_min_max (db : DB) (obj : Product) :
  Related.unit_set db obj <> [] ->
  exists lo hi,
    ProductListSerializer.get_prices db obj =
      VDict [("min", VDecimal lo); ("max", VDecimal hi)]
    /\ In lo (map price (Related.unit_set db obj))
    /\ In hi (map price (Related.unit_set db obj))
    /\ (forall u, In u (Related.unit_set db obj) -> lo <= price u <= hi)
    /\ (forall u, Related.unit_set db obj = [u] ->
                  lo = price u /\ hi = price u).
Proof.
  intros Hne. unfold ProductListSerializer.get_prices.
  destruct (Related.unit_set db obj) as [|u0 us]; [contradiction|].
  simpl map. unfold QuerySet.aggregate_min, QuerySet.aggregate_max.
  destruct (fold_left_min_least (map price us) (price u0)) as [Hlo_in Hlo].
  destruct (fold_left_max_greatest (map price us) (price u0)) as [Hhi_in Hhi].
  eexists _, _. split; [reflexivity|].
  split; [exact Hlo_in|]. split; [exact Hhi_in|]. split.
  - intros u Hu.
    assert (Hp : In (price u) (price u0 :: map price us))
      by (apply (in_map price (u0 :: us) u Hu)).
    split; [now apply Hlo | now apply Hhi].
  - intros u [= -> ->]. simpl. split; reflexivity.
Qed.

Lemma get_prices_min_max_witness :
  exists lo hi,
    ProductListSerializer.get_prices Shop.db Shop.shirt =
      VDict [("min", VDecimal lo); ("max", VDecimal hi)]
    /\ In lo (map price (Related.unit_set Shop.db Shop.shirt))
    /\ In hi (map price (Related.unit_set Shop.db Shop.shirt))
    /\ (forall u, In u (Related.unit_set Shop.db Shop.shirt) ->
                  lo <= price u <= hi)
    /\ (forall u, Related.unit_set Shop.db Shop.shirt = [u] ->
                  lo = price u /\ hi = price u).
Proof.
  apply (get_prices_min_max Shop.db Shop.shirt).
  vm_compute. discriminate.
Defined.

Lemma get_images_is_url_list_witness :
  UnitSerializer.get_images Shop.db Shop.mug_2 = VList [].
Proof.
  apply (proj2 (proj2 (get_images_is_url_list Shop.db Shop.mug_2))).
  reflexivity.
Defined.

(** ** Number of units of an order (C3) *)

Lemma length_flat_map_singletons {A B} (f : A -> list B) (l : list A) :
  (forall a, In a l -> exists b, f a = [b]) ->
  List.length (flat_map f l) = List.length l.
Proof.
  induction l as [|a l IH]; intros H; [reflexivity|].
  simpl. rewrite length_app, IH by (intros; apply H; now right).
  destruct (H a (or_introl eq_refl)) as [b ->]. reflexivity.
Qed.

(** C3. When every line item of the order references a unit of the store,
    [units_num] in the list view of the order is the number of its line
    items. *)
Theorem get_units_num_counts_order_units (db : DB) (obj : Order) :
  (forall ou, In ou (Related.orderunit_set db obj) ->
              exists u, Related.orderunit_unit_obj db ou = Ok u) ->
  OrderListSerializer.to_representation db obj =
    Ok (VDict [("id", VInt (order_id obj));
               ("created_at", VStr (created_at obj));
               ("units_num",
                VInt (Z.of_nat
                        (List.length (Related.orderunit_set db obj))))]).
Proof.
  intros Hfk.
  assert (Hn : OrderListSerializer.get_units_num db obj =
               VInt (Z.of_nat (List.length (Related.orderunit_set db obj)))).
  { unfold OrderListSerializer.get_units_num, QuerySet.count,
      Related.order_unit_set.
    rewrite length_flat_map_singletons; [reflexivity|].
    intros ou Hou. destruct (Hfk ou Hou) as [u Hu].
    exists u. now apply get_Ok_inv. }
  rewrite <- Hn. reflexivity.
Qed.

Lemma get_units_num_counts_order_units_witness :
  OrderListSerializer.to_representation Shop.db Shop.order_1 =
    Ok (VDict [("id", VInt 1);
               ("created_at", VStr "2017-05-01T10:00:00Z");
               ("units_num", VInt 2)]).
Proof.
  apply (get_units_num_counts_order_units Shop.db Shop.order_1).
  intros ou H. vm_compute in H.
  destruct H as [<-|[<-|[]]]; eexists; vm_compute; reflexivity.
Defined.

(** ** Detail view of a product (C1) *)

Lemma map_result_total {A B} (f : A -> result B) (l : list A) :
  (forall x, In x l -> exists y, f x = Ok y) ->
  exists ys, map_result f l = Ok ys.
Proof.
  induction l as [|x l IH]; intros H; simpl.
  - now exists [].
  - destruct (H x (or_introl eq_refl)) as [y ->].
    destruct IH as [ys ->]; [intros; apply H; now right|].
    now exists (y :: ys).
Qed.

Lemma map_result_pure {A B} (f : A -> B) (l : list A) :
  map_result (fun x => Ok (f x)) l = Ok (map f l).
Proof.
  induction l as [|x l IH]; simpl; [reflexivity|].
  rewrite IH. reflexivity.
Qed.

Lemma UnitSerializer_get_properties_total (db : DB) (u : Unit) :
  values_resolve db u ->
  exists l, UnitSerializer.get_properties db u = Ok (VList l).
Proof.
  intros H. unfold UnitSerializer.get_properties.
  edestruct (map_result_total
               (fun property_value =>
                  (let? property :=
                     Related.value_property_obj db property_value in
                   Ok (VDict [("name", VStr (property_name property));
                              ("value", VStr (value_value property_value))]))
                  %result)
               (Related.value_set db u)) as [l Hl].
  - intros v Hv. destruct (H v Hv) as [p ->]. simpl. eauto.
  - rewrite Hl. simpl. eauto.
Qed.

Lemma UnitSerializer_to_representation_total (db : DB) (u : Unit) :
  values_resolve db u ->
  exists props,
    UnitSerializer.to_representation db u =
      Ok (VDict [("sku", VStr (sku u));
                 ("price", VDecimal (price u));
                 ("properties", VList props);
                 ("images", UnitSerializer.get_images db u);
                 ("num_in_stock", VInt (num_in_stock u))]).
Proof.
  intros H. destruct (UnitSerializer_get_properties_total db u H) as [l Hl].
  exists l. unfold UnitSerializer.to_representation,
    ModelSerializer.to_representation, ModelSerializer.data,
    UnitSerializer.fields.
  cbn [map_result]. unfold ModelSerializer.field.
  cbn [UnitSerializer.declared Unit_column].
  rewrite Hl. reflexivity.
Qed.

(** The list view, field by field. *)
Lemma ProductListSerializer_representation (db : DB) (obj : Product) :
  ProductListSerializer.to_representation db obj =
    Ok (VDict
          [("id", VInt (product_id obj));
           ("title", VStr (title obj));
           ("tags", VList (map TagSerializer.to_representation
                               (Related.tag_set db obj)));
           ("prices", ProductListSerializer.get_prices db obj);
           ("image", ProductListSerializer.get_image db obj)]).
Proof.
  unfold ProductListSerializer.to_representation,
    ModelSerializer.to_representation, ModelSerializer.data,
    ProductListSerializer.fields.
  cbn [map_result]. unfold ModelSerializer.field.
  cbn [ProductListSerializer.declared Product_column].
  unfold ProductListSerializer.tags, ModelSerializer.many.
  rewrite map_result_pure. reflexivity.
Qed.

(** C1, as amended.  The detail view of a product has exactly the fields
    [id], [title], [tags], [description] and [units]: the first three as in
    the list view, the description, and the list of the product's units as
    the unit serializer renders them.  The [prices] and [image] fields of
    the list view are not part of it. *)
Theorem ProductSerializer_detail_fields (db : DB) (obj : Product) :
  (forall u, In u (Related.unit_set db obj) -> values_resolve db u) ->
  exists units_repr d,
    map_result (UnitSerializer.to_representation db)
               (Related.unit_set db obj) = Ok units_repr
    /\ ProductSerializer.to_representation db obj = Ok (VDict d)
    /\ d = [("id", VInt (product_id obj));
            ("title", VStr (title obj));
            ("tags", VList (map TagSerializer.to_representation
                                (Related.tag_set db obj)));
            ("description", VStr (description obj));
            ("units", VList units_repr)]
    /\ dict_get "prices" d = None
    /\ dict_get "image" d = None.
Proof.
  intros H.
  destruct (map_result_total (UnitSerializer.to_representation db)
              (Related.unit_set db obj)) as [us Hus].
  { intros u Hu.
    destruct (UnitSerializer_to_representation_total db u (H u Hu))
      as [props ->]. eauto. }
  exists us. eexists. split; [exact Hus|].
  split; [|split; [reflexivity|split; reflexivity]].
  unfold ProductSerializer.to_representation,
    ModelSerializer.to_representation, ModelSerializer.data,
    ProductSerializer.fields.
  cbn [map_result]. unfold ModelSerializer.field.
  cbn [ProductSerializer.declared ProductListSerializer.declared
       Product_column].
  unfold ProductListSerializer.tags, ProductSerializer.units,
    ModelSerializer.many.
  rewrite map_result_pure, Hus. reflexivity.
Qed.

Lemma ProductSerializer_detail_fields_witness :
  exists units_repr d,
    map_result (UnitSerializer.to_representation Shop.db)
               (Related.unit_set Shop.db Shop.shirt) = Ok units_repr
    /\ ProductSerializer.to_representation Shop.db Shop.shirt = Ok (VDict d)
    /\ d = [("id", VInt (product_id Shop.shirt));
            ("title", VStr (title Shop.shirt));
            ("tags", VList (map TagSerializer.to_representation
                                (Related.tag_set Shop.db Shop.shirt)));
            ("description", VStr (description Shop.shirt));
            ("units", VList units_repr)]
    /\ dict_get "prices" d = None
    /\ dict_get "image" d = None.
Proof.
  apply (ProductSerializer_detail_fields Shop.db Shop.shirt).
  intros u Hu. vm_compute in Hu.
  destruct Hu as [<-|[<-|[]]]; intros v Hv; vm_compute in Hv;
    destruct Hv as [<-|[<-|[]]]; eexists; vm_compute; reflexivity.
Defined.

(** C1, as stated, fails: the list view of the T-shirt has [prices] and
    [image], its detail view has neither. *)
Lemma ProductSerializer_detail_lacks_prices_and_image :
  exists d_list d,
    ProductListSerializer.to_representation Shop.db Shop.shirt
      = Ok (VDict d_list)
    /\ ProductSerializer.to_representation Shop.db Shop.shirt = Ok (VDict d)
    /\ In "prices" (dict_keys d_list) /\ ~ In "prices" (dict_keys d)
    /\ In "image" (dict_keys d_list) /\ ~ In "image" (dict_keys d).
Proof.
  eexists. eexists.
  split; [vm_compute; reflexivity|].
  split; [vm_compute; reflexivity|].
  simpl. repeat split; auto 6;
    intros H; repeat (destruct H as [H|H]; [discriminate H|]); exact H.
Qed.

(** ** Image of a product (C2) *)

(** The rows of [unit_set.filter(unitimage__isnull=False)] are the units of
    the product that have an image. *)
Lemma in_units_with_images (db : DB) (obj : Product) (u : Unit) :
  In u (flat_map (fun u => map (fun _ => u) (Related.unitimage_set db u))
                 (Related.unit_set db obj))
  <-> In u (Related.unit_set db obj) /\ Related.unitimage_set db u <> [].
Proof.
  rewrite in_flat_map. split.
  - intros [x [Hx Hin]]. apply in_map_iff in Hin.
    destruct Hin as [i [-> Hi]]. split; [exact Hx|].
    intros E. rewrite E in Hi. exact Hi.
  - intros [Hu Hne]. exists u. split; [exact Hu|].
    destruct (Related.unitimage_set db u) as [|i l]; [contradiction|].
    now left.
Qed.

(** C2, as amended.  The image of a product in the list view is [None] when
    none of its units has an image.  Otherwise it comes from the unit with
    the lowest primary key among the units of the product that have an
    image: it is the URL of the first main-flagged image of that unit, or of
    the first image of that unit when it has no main-flagged image.  Images
    of the other units are not looked at. *)
Theorem get_image_of_first_unit_with_images (db : DB) (obj : Product) :
  ((forall u, In u (Related.unit_set db obj) ->
              Related.unitimage_set db u = []) ->
   ProductListSerializer.get_image db obj = VNone)
  /\ (forall u, In u (Related.unit_set db obj) ->
                Related.unitimage_set db u <> [] ->
      exists u0 i,
        In u0 (Related.unit_set db obj)
        /\ In i (Related.unitimage_set db u0)
        /\ (forall u', In u' (Related.unit_set db obj) ->
                       Related.unitimage_set db u' <> [] ->
                       unit_id u0 <= unit_id u')
        /\ ProductListSerializer.get_image db obj = VStr (image_url i)
        /\ match find is_main (Related.unitimage_set db u0) with
           | Some m => i = m
           | None => hd_error (Related.unitimage_set db u0) = Some i
           end).
Proof.
  unfold ProductListSerializer.get_image. split.
  - intros Hnone.
    destruct (QuerySet.first (QuerySet.order_by unit_id _)) as [u0|] eqn:E;
      [|reflexivity].
    apply first_order_by_least in E. destruct E as [Hin _].
    apply in_units_with_images in Hin. destruct Hin as [Hu0 Hne].
    now specialize (Hnone u0 Hu0).
  - intros u Hu Hne.
    destruct (QuerySet.first (QuerySet.order_by unit_id _)) as [u0|] eqn:E.
    + apply first_order_by_least in E. destruct E as [Hin Hleast].
      apply in_units_with_images in Hin. destruct Hin as [Hu0 Hne0].
      rewrite first_order_by_is_main.
      assert (Hmin : forall u', In u' (Related.unit_set db obj) ->
                Related.unitimage_set db u' <> [] ->
                unit_id u0 <= unit_id u').
      { intros u' Hu' Hne'. apply Hleast.
        apply in_units_with_images. now split. }
      destruct (find is_main (Related.unitimage_set db u0)) as [m|] eqn:Ef.
      * destruct (find_some _ _ Ef) as [Hm _].
        exists u0, m. rewrite Ef. repeat split; auto.
      * destruct (Related.unitimage_set db u0) as [|i l] eqn:Ei;
          [contradiction|].
        exists u0, i. rewrite Ei, Ef. simpl. repeat split; auto.
    + apply first_order_by_None in E.
      assert (Hin : In u (flat_map
                (fun u => map (fun _ => u) (Related.unitimage_set db u))
                (Related.unit_set db obj)))
        by (apply in_units_with_images; now split).
      rewrite E in Hin. destruct Hin.
Qed.

Lemma get_image_of_first_unit_with_images_witness :
  ProductListSerializer.get_image Shop.db Shop.poster = VNone
  /\ exists u0 i,
       In u0 (Related.unit_set Shop.db Shop.mug)
       /\ In i (Related.unitimage_set Shop.db u0)
       /\ (forall u', In u' (Related.unit_set Shop.db Shop.mug) ->
                      Related.unitimage_set Shop.db u' <> [] ->
                      unit_id u0 <= unit_id u')
       /\ ProductListSerializer.get_image Shop.db Shop.mug
            = VStr (image_url i)
       /\ match find is_main (Related.unitimage_set Shop.db u0) with
          | Some m => i = m
          | None => hd_error (Related.unitimage_set Shop.db u0) = Some i
          end.
Proof.
  split.
  - apply (proj1 (get_image_of_first_unit_with_images Shop.db Shop.poster)).
    intros u Hu. vm_compute in Hu. destruct Hu.
  - apply (proj2 (get_image_of_first_unit_with_images Shop.db Shop.mug)
             Shop.mug_1).
    + vm_compute. auto.
    + vm_compute. discriminate.
Defined.

(** C2, as stated, fails: the only main-flagged image among the images of
    the T-shirt's units belongs to its second unit, and the list view shows
    an unflagged image of the first unit. *)
Lemma get_image_misses_main_image_of_later_unit :
  ProductListSerializer.get_image Shop.db Shop.shirt
    = VStr "/media/ts-s-side.jpg"
  /\ exists u i,
       In u (Related.unit_set Shop.db Shop.shirt)
       /\ In i (Related.unitimage_set Shop.db u)
       /\ is_main i = true
       /\ image_url i = "/media/ts-m-front.jpg"
       /\ ProductListSerializer.get_image Shop.db Shop.shirt
            <> VStr (image_url i).
Proof.
  split; [vm_compute; reflexivity|].
  exists Shop.shirt_m.
  exists {| image_id := 2; image_url := "/media/ts-m-front.jpg";
            is_main := true; image_unit := 2 |}.
  vm_compute. repeat split; auto. discriminate.
Qed.

(** ** Cart validation (C5) *)

Lemma filter_none {A} (p : A -> bool) (l : list A) :
  (forall x, In x l -> p x = false) -> filter p l = [].
Proof.
  induction l as [|a l IH]; intros H; simpl; [reflexivity|].
  rewrite (H a (or_introl eq_refl)). apply IH. intros; apply H; now right.
Qed.

Lemma filter_unique_key {A} (key : A -> string) (l : list A) (u : A) :
  NoDup (map key l) -> In u l ->
  filter (fun x => String.eqb (key x) (key u)) l = [u].
Proof.
  induction l as [|a l IH]; intros Hnd Hin; [destruct Hin|].
  simpl in Hnd. inversion Hnd as [|k ks Hnotin Hnd']; subst.
  simpl. destruct Hin as [->|Hin].
  - rewrite String.eqb_refl. f_equal. apply filter_none.
    intros x Hx. apply String.eqb_neq. intros E. apply Hnotin.
    rewrite <- E. now apply in_map.
  - destruct (String.eqb_spec (key a) (key u)) as [E|_].
    + exfalso. apply Hnotin. rewrite E. now apply in_map.
    + now apply IH.
Qed.

(** C5. The quantity of a cart submission is 1 when none is given, and a
    given quantity below 1 is refused.  With unique SKUs in the store,
    validation raises "Unit does not exist" when no unit has the submitted
    SKU, raises "There are not enough units in stock" when the unit with
    that SKU has fewer in stock than the quantity, and returns the data in
    the one remaining case. *)
Theorem validate_cart_unit (db : DB) (data : CartUnitSerializer.Data) :
  NoDup (map sku (units db)) ->
  CartUnitSerializer.quantity_field None = Ok 1
  /\ (forall q, q < 1 ->
        CartUnitSerializer.quantity_field (Some q) =
          Raise (ValidationError
                   "Ensure this value is greater than or equal to 1."))
  /\ (forall q, 1 <= q -> CartUnitSerializer.quantity_field (Some q) = Ok q)
  /\ ((forall u, In u (units db) ->
                 sku u <> CartUnitSerializer.data_sku data) ->
      CartUnitSerializer.validate db data =
        Raise (ValidationError "Unit does not exist"))
  /\ (forall u, In u (units db) ->
                sku u = CartUnitSerializer.data_sku data ->
                num_in_stock u < CartUnitSerializer.data_quantity data ->
      CartUnitSerializer.validate db data =
        Raise (ValidationError "There are not enough units in stock"))
  /\ (forall u, In u (units db) ->
                sku u = CartUnitSerializer.data_sku data ->
                CartUnitSerializer.data_quantity data <= num_in_stock u ->
      CartUnitSerializer.validate db data = Ok data).
Proof.
  intros Hnd. unfold CartUnitSerializer.quantity_field.
  split; [reflexivity|].
  split; [intros q Hq; destruct (Z.ltb_spec q 1); [reflexivity|lia]|].
  split; [intros q Hq; destruct (Z.ltb_spec q 1); [lia|reflexivity]|].
  unfold CartUnitSerializer.validate, QuerySet.get.
  split; [|split].
  - intros Hnone. rewrite filter_none; [reflexivity|].
    intros x Hx. apply String.eqb_neq. now apply Hnone.
  - intros u Hu <- Hlt. rewrite (filter_unique_key sku _ u Hnd Hu).
    destruct (Z.ltb_spec (num_in_stock u)
                         (CartUnitSerializer.data_quantity data));
      [reflexivity|lia].
  - intros u Hu <- Hle. rewrite (filter_unique_key sku _ u Hnd Hu).
    destruct (Z.ltb_spec (num_in_stock u)
                         (CartUnitSerializer.data_quantity data));
      [lia|reflexivity].
Qed.

Lemma validate_cart_unit_witness :
  CartUnitSerializer.validate Shop.db
    {| CartUnitSerializer.data_sku := "TS-M";
       CartUnitSerializer.data_quantity := 1 |}
  = Raise (ValidationError "There are not enough units in stock").
Proof.
  assert (Hnd : NoDup (map sku (units Shop.db))).
  { simpl. repeat constructor; simpl; intros H;
      repeat (destruct H as [H|H]; [discriminate H|]); exact H. }
  apply (proj1 (proj2 (proj2 (proj2 (proj2
           (validate_cart_unit Shop.db
              {| CartUnitSerializer.data_sku := "TS-M";
                 CartUnitSerializer.data_quantity := 1 |} Hnd)))))
         Shop.shirt_m).
  - simpl. auto.
  - reflexivity.
  - simpl. lia.
Defined.

(** ** Price of an ordered unit (C6) *)

Lemma UnitForOrderDetail_data_fields (db : DB) (u : Unit) (p : Product)
    (props : list value) :
  Related.unit_product_obj db u = Ok p ->
  UnitForOrderDetail.get_properties db u = Ok (VList props) ->
  UnitForOrderDetail.data db u =
    Ok [("title", VStr (title p));
        ("properties", VList props);
        ("image", UnitForOrderDetail.get_image db u);
        ("product_id", VInt (product_id p));
        ("price", VDecimal (price u));
        ("sku", VStr (sku u))].
Proof.
  intros Hp Hprops.
  unfold UnitForOrderDetail.data, ModelSerializer.data,
    UnitForOrderDetail.fields.
  cbn [map_result]. unfold ModelSerializer.field.
  cbn [UnitForOrderDetail.declared Unit_column].
  rewrite Hp, Hprops. reflexivity.
Qed.

Lemma filter_map_same {A} (p : A -> bool) (g : A -> A) (l : list A) :
  (forall x, p (g x) = p x) -> filter p (map g l) = map g (filter p l).
Proof.
  intros H. induction l as [|a l IH]; simpl; [reflexivity|].
  rewrite H. destruct (p a); simpl; now rewrite IH.
Qed.

(** After a change of prices the line item still references its unit, at
    its new price. *)
Lemma orderunit_unit_obj_reprice (f : Unit -> Z) (db : DB) (obj : OrderUnit)
    (u : Unit) :
  Related.orderunit_unit_obj db obj = Ok u ->
  Related.orderunit_unit_obj (reprice f db) obj =
    Ok {| unit_id := unit_id u; sku := sku u; price := f u;
          num_in_stock := num_in_stock u; unit_product := unit_product u |}.
Proof.
  unfold Related.orderunit_unit_obj. intros H. apply get_Ok_inv in H.
  apply get_Ok_intro. unfold reprice. simpl units.
  rewrite filter_map_same by reflexivity. rewrite H. reflexivity.
Qed.

(** C6. When the line item references a unit of the store (whose product
    and property names resolve), the unit entry of the order detail view
    reports the price stored on the line item; and the entry is the same,
    price included, after any change of the units' prices in the store. *)
Theorem get_unit_reports_snapshot_price (db : DB) (obj : OrderUnit)
    (u : Unit) (p : Product) (f : Unit -> Z) :
  Related.orderunit_unit_obj db obj = Ok u ->
  Related.unit_product_obj db u = Ok p ->
  values_resolve db u ->
  exists d,
    OrderUnitSerializer.get_unit db obj = Ok (VDict d)
    /\ dict_get "price" d = Some (VDecimal (unit_price obj))
    /\ OrderUnitSerializer.get_unit (reprice f db) obj = Ok (VDict d).
Proof.
  intros Hu Hp Hv.
  destruct (UnitSerializer_get_properties_total db u Hv) as [props Hprops].
  change (UnitSerializer.get_properties db u)
    with (UnitForOrderDetail.get_properties db u) in Hprops.
  eexists. unfold OrderUnitSerializer.get_unit.
  rewrite Hu, (orderunit_unit_obj_reprice f db obj u Hu). cbn [rbind].
  rewrite (UnitForOrderDetail_data_fields db u p props Hp Hprops).
  rewrite (UnitForOrderDetail_data_fields (reprice f db) _ p props);
    [|exact Hp|exact Hprops].
  cbn [rbind]. split; [reflexivity|]. split; reflexivity.
Qed.

Lemma get_unit_reports_snapshot_price_witness :
  exists d,
    OrderUnitSerializer.get_unit Shop.db Shop.line_1 = Ok (VDict d)
    /\ dict_get "price" d = Some (VDecimal 1400)
    /\ OrderUnitSerializer.get_unit (reprice (fun _ => 1999) Shop.db)
                                    Shop.line_1 = Ok (VDict d).
Proof.
  apply (get_unit_reports_snapshot_price Shop.db Shop.line_1 Shop.shirt_s
           Shop.shirt (fun _ => 1999)).
  - vm_compute. reflexivity.
  - vm_compute. reflexivity.
  - intros v Hv. vm_compute in Hv.
    destruct Hv as [<-|[<-|[]]]; eexists; vm_compute; reflexivity.
Defined.

(** ** The Staff group (C7, C10) *)

Lemma bind_Ok_inv {A B} (m : M A) (f : A -> M B) (db db' : DB) (b : B) :
  bind m f db = (db', Ok b) ->
  exists db1 a, m db = (db1, Ok a) /\ f a db1 = (db', Ok b).
Proof.
  unfold bind. destruct (m db) as [db1 [a|e]]; intros H.
  - now exists db1, a.
  - discriminate H.
Qed.

Lemma pair_eqb_eq (a b : Z * Z) : pair_eqb a b = true <-> a = b.
Proof.
  destruct a as [a1 a2], b as [b1 b2]. unfold pair_eqb. simpl.
  rewrite andb_true_iff, !Z.eqb_eq. split.
  - intros [-> ->]. reflexivity.
  - intros [= -> ->]. auto.
Qed.

Lemma has_permission_iff (db : DB) (g : Group) (codename : string) :
  has_permission db g codename = true <->
  exists p, In p (permissions db)
            /\ permission_codename p = codename
            /\ In (group_id g, permission_id p) (group_permissions db).
Proof.
  unfold has_permission. rewrite existsb_exists. split.
  - intros [p [Hp H]]. apply andb_true_iff in H. destruct H as [Hc Hl].
    apply String.eqb_eq in Hc. apply existsb_exists in Hl.
    destruct Hl as [row [Hrow Heq]]. apply pair_eqb_eq in Heq. subst row.
    now exists p.
  - intros [p [Hp [Hc Hl]]]. exists p. split; [exact Hp|].
    apply andb_true_iff. split; [now apply String.eqb_eq|].
    apply existsb_exists. exists (group_id g, permission_id p).
    split; [exact Hl|]. now apply pair_eqb_eq.
Qed.

Lemma gains_links_refl (db : DB) : gains_links db db.
Proof. repeat split. apply incl_refl. Qed.

Lemma gains_links_trans (db1 db2 db3 : DB) :
  gains_links db1 db2 -> gains_links db2 db3 -> gains_links db1 db3.
Proof.
  intros [Hg [Hp Hl]] [Hg' [Hp' Hl']]. repeat split; try congruence.
  eapply incl_tran; eassumption.
Qed.

Lemma has_permission_gains_links (db db' : DB) (g : Group) (c : string) :
  gains_links db db' ->
  has_permission db g c = true -> has_permission db' g c = true.
Proof.
  intros [_ [Hp Hl]]. rewrite !has_permission_iff.
  intros [p [H1 [H2 H3]]]. exists p. rewrite Hp. auto.
Qed.

(** A loop whose body only adds links only adds links, however it ends. *)
Lemma for_each_gains_links {A} (body : A -> M unit) (l : list A) :
  (forall x db db' r, body x db = (db', r) -> gains_links db db') ->
  forall db db' r, for_each l body db = (db', r) -> gains_links db db'.
Proof.
  intros Hbody. induction l as [|x l IH]; intros db db' r; simpl.
  - intros [= <- _]. apply gains_links_refl.
  - unfold bind. destruct (body x db) as [db1 [[]|e]] eqn:E.
    + intros H. eapply gains_links_trans; [eapply Hbody|eapply IH];
        eassumption.
    + intros [= <- _]. eapply Hbody; eassumption.
Qed.

(** When such a loop ends normally, what each round established still
    holds, provided it survives the adding of links. *)
Lemma for_each_establishes {A} (body : A -> M unit) (Q : A -> DB -> Prop)
    (l : list A) :
  (forall x db db' r, body x db = (db', r) -> gains_links db db') ->
  (forall x db db', body x db = (db', Ok tt) -> Q x db') ->
  (forall x db db', gains_links db db' -> Q x db -> Q x db') ->
  forall db db', for_each l body db = (db', Ok tt) ->
                 forall x, In x l -> Q x db'.
Proof.
  intros Hgain Hbody Hkeep. induction l as [|a l IH]; intros db db' H x Hx;
    [destruct Hx|].
  simpl in H. apply bind_Ok_inv in H. destruct H as [db1 [[] [Ha Hrest]]].
  destruct Hx as [<-|Hx].
  - eapply Hkeep; [|eapply Hbody; eassumption].
    eapply for_each_gains_links; eassumption.
  - eapply IH; eassumption.
Qed.

Lemma grant_gains_links (g : Group) (ct perm : string) (db db' : DB)
    (r : result unit) :
  grant g ct perm db = (db', r) -> gains_links db db'.
Proof.
  unfold grant, bind, Manager.Permission_get, Manager.permissions_add.
  destruct (QuerySet.get _ _) as [p|e].
  - destruct (existsb _ _); intros [= <- _].
    + apply gains_links_refl.
    + repeat split. simpl. apply incl_appl, incl_refl.
  - intros [= <- _]. apply gains_links_refl.
Qed.

Lemma grant_establishes (g : Group) (ct perm : string) (db db' : DB) :
  grant g ct perm db = (db', Ok tt) ->
  has_permission db' g (SellerSerializer.format_codename perm ct) = true.
Proof.
  unfold grant, bind, Manager.Permission_get, Manager.permissions_add.
  destruct (QuerySet.get _ _) as [p|e] eqn:E; [|discriminate].
  apply get_Ok_inv in E.
  assert (Hp : In p (permissions db) /\
               permission_codename p = SellerSerializer.format_codename perm ct).
  { assert (Hin : In p [p]) by now left. rewrite <- E in Hin.
    apply filter_In in Hin. destruct Hin as [Hin Hc].
    now apply String.eqb_eq in Hc. }
  destruct Hp as [Hin Hc].
  destruct (existsb _ _) eqn:Ex; intros [= <-]; apply has_permission_iff;
    exists p; simpl; repeat split; auto.
  - apply existsb_exists in Ex. destruct Ex as [row [Hrow Heq]].
    apply pair_eqb_eq in Heq. now subst row.
  - apply in_or_app. right. now left.
Qed.

Lemma carries_fixed_set_intro (db : DB) (g : Group) :
  (forall ct, In ct SellerSerializer.content_types ->
     forall perm, In perm (snd ct) ->
       has_permission db g (SellerSerializer.format_codename perm (fst ct))
       = true) ->
  carries_fixed_set db g = true.
Proof.
  intros H. unfold carries_fixed_set, fixed_codenames.
  apply forallb_forall. intros c Hc. apply in_flat_map in Hc.
  destruct Hc as [ct [Hct Hc]]. apply in_map_iff in Hc.
  destruct Hc as [perm [<- Hperm]]. now apply H.
Qed.

Lemma existsb_false_of_filter_nil {A} (p : A -> bool) (l : list A) :
  filter p l = [] -> existsb p l = false.
Proof.
  induction l as [|a l IH]; simpl; [reflexivity|].
  destruct (p a); [discriminate|]. exact IH.
Qed.

(** [get_staff_group] on a store with exactly one group named Staff. *)
Lemma get_staff_group_found (db : DB) (g : Group) :
  staff_groups db = [g] -> SellerSerializer.get_staff_group db = (db, Ok g).
Proof.
  unfold staff_groups, SellerSerializer.get_staff_group, Manager.Group_get,
    QuerySet.get.
  intros ->. reflexivity.
Qed.

(** [get_staff_group] on a store with no group named Staff: when it
    returns, the group it returns is new, is the one group named Staff, and
    carries the full fixed permission set. *)
Lemma get_staff_group_created (db db' : DB) (g : Group) :
  staff_groups db = [] ->
  SellerSerializer.get_staff_group db = (db', Ok g) ->
  staff_groups db' = [g] /\ carries_fixed_set db' g = true
  /\ groups db' = groups db ++ [g].
Proof.
  unfold staff_groups. intros Hnone.
  unfold SellerSerializer.get_staff_group, Manager.Group_get, QuerySet.get.
  rewrite Hnone. intros H.
  apply bind_Ok_inv in H. destruct H as [db1 [g0 [Hcreate H]]].
  apply bind_Ok_inv in H. destruct H as [db2 [[] [Hloop H]]].
  injection H as <- <-.
  unfold Manager.Group_create in Hcreate.
  rewrite (existsb_false_of_filter_nil _ _ Hnone) in Hcreate.
  injection Hcreate as <- <-.
  set (g0 := {| group_id := QuerySet.next_id (map group_id (groups db));
                group_name := "Staff" |}) in *.
  set (db1 := set_groups db (groups db ++ [g0])) in *.
  assert (Hinner : forall ct db3 db4 r,
            for_each (snd ct) (grant g0 (fst ct)) db3 = (db4, r) ->
            gains_links db3 db4).
  { intros ct. apply for_each_gains_links.
    intros perm. apply grant_gains_links. }
  assert (Hgain : gains_links db1 db2).
  { eapply for_each_gains_links; [|exact Hloop].
    intros ct db3 db4 r. apply (Hinner ct). }
  destruct Hgain as [Hgroups [Hperms Hlinks]].
  assert (Hg : groups db2 = groups db ++ [g0]) by (rewrite Hgroups; reflexivity).
  split; [|split; [|exact Hg]].
  - rewrite Hg, filter_app, Hnone. reflexivity.
  - apply carries_fixed_set_intro. intros ct Hct.
    apply (for_each_establishes
             (fun ct => for_each (snd ct) (grant g0 (fst ct)))
             (fun ct db => forall perm, In perm (snd ct) ->
                has_permission db g0
                  (SellerSerializer.format_codename perm (fst ct)) = true)
             SellerSerializer.content_types) with (db := db1);
      [exact Hinner| | |exact Hloop|exact Hct].
    + intros ct' db3 db4 H3.
      apply (for_each_establishes (grant g0 (fst ct'))
               (fun perm db => has_permission db g0
                  (SellerSerializer.format_codename perm (fst ct')) = true)
               (snd ct')) with (db := db3); [| | |exact H3].
      * intros perm. apply grant_gains_links.
      * intros perm. apply grant_establishes.
      * intros perm db5 db6. apply has_permission_gains_links.
    + intros ct' db3 db4 H34 HQ perm Hperm.
      eapply has_permission_gains_links; [exact H34|]. now apply HQ.
Qed.

(** The ways [get_staff_group] returns a group. *)
Lemma get_staff_group_cases (db db' : DB) (g : Group) :
  SellerSerializer.get_staff_group db = (db', Ok g) ->
  (staff_groups db = [g] /\ db' = db)
  \/ (staff_groups db = [] /\ staff_groups db' = [g]
      /\ carries_fixed_set db' g = true).
Proof.
  intros H. destruct (staff_groups db) as [|g1 [|g2 l]] eqn:E.
  - right. destruct (get_staff_group_created db db' g E H) as [H1 [H2 _]].
    auto.
  - left. rewrite (get_staff_group_found db g1 E) in H.
    injection H as <- <-. auto.
  - exfalso. revert H.
    unfold SellerSerializer.get_staff_group, Manager.Group_get, QuerySet.get.
    fold (staff_groups db). rewrite E. discriminate.
Qed.

(** A loop ends normally when each round does, under an invariant. *)
Lemma for_each_total {A} (body : A -> M unit) (I : DB -> Prop)
    (P : A -> Prop) (l : list A) :
  (forall x db, P x -> I db -> exists db', body x db = (db', Ok tt) /\ I db') ->
  (forall x, In x l -> P x) ->
  forall db, I db -> exists db', for_each l body db = (db', Ok tt) /\ I db'.
Proof.
  intros Hbody. induction l as [|a l IH]; intros HP db HI; simpl.
  - exists db. auto.
  - destruct (Hbody a db (HP a (or_introl eq_refl)) HI) as [db1 [E HI1]].
    unfold bind. rewrite E. apply IH; [|exact HI1].
    intros x Hx. apply HP. now right.
Qed.

Lemma grant_total (g : Group) (ct perm : string) (db : DB) (p : Permission) :
  filter (fun p => String.eqb (permission_codename p)
                              (SellerSerializer.format_codename perm ct))
         (permissions db) = [p] ->
  exists db', grant g ct perm db = (db', Ok tt)
              /\ permissions db' = permissions db.
Proof.
  intros H. unfold grant, bind, Manager.Permission_get,
    Manager.permissions_add, QuerySet.get.
  rewrite H. destruct (existsb _ _); eexists; split; reflexivity.
Qed.

(** [get_staff_group] returns on a store with no group named Staff where
    the fixed permissions are installed. *)
Lemma get_staff_group_total (db : DB) :
  staff_groups db = [] -> permissions_installed db ->
  exists db' g, SellerSerializer.get_staff_group db = (db', Ok g).
Proof.
  intros Hnone Hinst.
  unfold SellerSerializer.get_staff_group, Manager.Group_get, QuerySet.get.
  fold (staff_groups db). rewrite Hnone.
  unfold bind at 1. unfold Manager.Group_create.
  rewrite (existsb_false_of_filter_nil _ _ Hnone).
  set (g0 := {| group_id := QuerySet.next_id (map group_id (groups db));
                group_name := "Staff" |}).
  set (db1 := set_groups db (groups db ++ [g0])).
  destruct (for_each_total
              (fun ct => for_each (snd ct) (grant g0 (fst ct)))
              (fun d => permissions d = permissions db)
              (fun ct => In ct SellerSerializer.content_types)
              SellerSerializer.content_types) with (db := db1)
    as [db2 [Hloop _]]; [|auto|reflexivity|].
  - intros ct d Hct Hd.
    apply (for_each_total (grant g0 (fst ct))
             (fun d => permissions d = permissions db)
             (fun perm => In perm (snd ct))); [|auto|exact Hd].
    intros perm d' Hperm Hd'.
    destruct (Hinst (SellerSerializer.format_codename perm (fst ct)))
      as [p Hp].
    { unfold fixed_codenames. apply in_flat_map. exists ct.
      split; [exact Hct|]. apply in_map_iff. now exists perm. }
    rewrite <- Hd' in Hp.
    destruct (grant_total g0 (fst ct) perm d' p Hp) as [d'' [E Hd'']].
    exists d''. split; [exact E|congruence].
  - exists db2, g0. unfold bind.
    change (for_each SellerSerializer.content_types _ db1)
      with (for_each SellerSerializer.content_types
              (fun ct => for_each (snd ct) (grant g0 (fst ct))) db1).
    rewrite Hloop. reflexivity.
Qed.

(** C10. On a store with one group named Staff, [get_staff_group] returns
    that group and leaves the store as it is: no permission is linked to
    the group, whatever it carried.  On a store with no group named Staff
    and the fixed permissions installed, it returns a new group, then the
    one group named Staff, which carries the full fixed permission set. *)
Theorem get_staff_group_keeps_existing_group (db : DB) :
  (forall g, staff_groups db = [g] ->
     SellerSerializer.get_staff_group db = (db, Ok g))
  /\ (staff_groups db = [] -> permissions_installed db ->
      exists db' g,
        SellerSerializer.get_staff_group db = (db', Ok g)
        /\ ~ In g (groups db)
        /\ staff_groups db' = [g]
        /\ carries_fixed_set db' g = true).
Proof.
  split; [apply get_staff_group_found|].
  intros Hnone Hinst.
  destruct (get_staff_group_total db Hnone Hinst) as [db' [g H]].
  destruct (get_staff_group_created db db' g Hnone H) as [H1 [H2 H3]].
  exists db', g. repeat split; auto.
  intros Hin.
  assert (Hs : In g (staff_groups db)).
  { unfold staff_groups. apply filter_In. split; [exact Hin|].
    assert (Hg : In g (staff_groups db')) by (rewrite H1; now left).
    unfold staff_groups in Hg. apply filter_In in Hg. tauto. }
  rewrite Hnone in Hs. destruct Hs.
Qed.

Lemma get_staff_group_keeps_existing_group_witness :
  SellerSerializer.get_staff_group Shop.db_with_bare_staff
    = (Shop.db_with_bare_staff, Ok {| group_id := 1; group_name := "Staff" |})
  /\ group_permissions
       (fst (SellerSerializer.get_staff_group Shop.db_with_bare_staff)) = [].
Proof.
  assert (H : SellerSerializer.get_staff_group Shop.db_with_bare_staff
    = (Shop.db_with_bare_staff, Ok {| group_id := 1; group_name := "Staff" |})).
  { apply (proj1 (get_staff_group_keeps_existing_group
                    Shop.db_with_bare_staff)).
    reflexivity. }
  split; [exact H|]. rewrite H. reflexivity.
Defined.

(** What the Staff group is and carries is read from the tables of
    [auth_view] alone. *)
Lemma auth_view_staff (db db' : DB) :
  auth_view db' = auth_view db ->
  staff_groups db' = staff_groups db
  /\ forall g, carries_fixed_set db' g = carries_fixed_set db g.
Proof.
  unfold auth_view. intros [= Hg Hp Hl].
  unfold staff_groups, carries_fixed_set, has_permission.
  rewrite Hg, Hp, Hl. auto.
Qed.

Lemma User_create_auth_view (email username : string) (db db' : DB)
    (r : result User) :
  Manager.User_create email username db = (db', r) ->
  auth_view db' = auth_view db.
Proof.
  unfold Manager.User_create. destruct (existsb _ _); intros [= <- _];
    reflexivity.
Qed.

Lemma groups_add_auth_view (u : User) (g : Group) (db db' : DB)
    (r : result unit) :
  Manager.groups_add u g db = (db', r) -> auth_view db' = auth_view db.
Proof.
  unfold Manager.groups_add. destruct (existsb _ _); intros [= <- _];
    reflexivity.
Qed.

Lemma User_save_auth_view (u : User) (db db' : DB) (r : result unit) :
  Manager.User_save u db = (db', r) -> auth_view db' = auth_view db.
Proof.
  unfold Manager.User_save. destruct (existsb _ _); intros [= <- _];
    reflexivity.
Qed.

Lemma Seller_create_auth_view (u : User) (name address : string)
    (db db' : DB) (r : result Seller) :
  Manager.Seller_create u name address db = (db', r) ->
  auth_view db' = auth_view db.
Proof.
  unfold Manager.Seller_create. destruct (existsb _ _); intros [= <- _];
    reflexivity.
Qed.

(** After a seller was created on a store where every group named Staff
    carries the fixed set, there is one group named Staff and it carries
    the fixed set. *)
Lemma create_staff_group (d : SellerSerializer.Data) (db db' : DB)
    (u : User) :
  staff_ready db ->
  SellerSerializer.create d db = (db', Ok u) ->
  exists g, staff_groups db' = [g] /\ carries_fixed_set db' g = true.
Proof.
  intros Hready H. unfold SellerSerializer.create in H.
  apply bind_Ok_inv in H. destruct H as [db1 [u1 [H1 H]]].
  apply bind_Ok_inv in H. destruct H as [db2 [g [H2 H]]].
  apply bind_Ok_inv in H. destruct H as [db3 [[] [H3 H]]].
  apply bind_Ok_inv in H. destruct H as [db4 [[] [H4 H]]].
  apply bind_Ok_inv in H. destruct H as [db5 [s [H5 H]]].
  injection H as <- _.
  apply User_create_auth_view, auth_view_staff in H1.
  apply groups_add_auth_view in H3.
  apply User_save_auth_view in H4.
  apply Seller_create_auth_view in H5.
  assert (H25 : auth_view db5 = auth_view db2) by congruence.
  apply auth_view_staff in H25. destruct H25 as [Hs Hc].
  destruct H1 as [Hs1 Hc1].
  exists g. rewrite Hs, Hc.
  destruct (get_staff_group_cases db1 db2 g H2) as [[E ->]|[_ [E C]]].
  - split; [exact E|]. rewrite Hc1. apply Hready.
    rewrite <- Hs1, E. now left.
  - auto.
Qed.

(** C7, as amended.  Take a store where every group named Staff carries
    the full fixed permission set, which is so when there is no such group.
    After two successful seller creations, one after the other, the store
    has exactly one group named Staff, and it carries the full fixed
    permission set. *)
Theorem two_sellers_one_staff_group (db db1 db2 : DB)
    (d1 d2 : SellerSerializer.Data) (u1 u2 : User) :
  staff_ready db ->
  SellerSerializer.create d1 db = (db1, Ok u1) ->
  SellerSerializer.create d2 db1 = (db2, Ok u2) ->
  exists g, staff_groups db2 = [g] /\ carries_fixed_set db2 g = true.
Proof.
  intros Hready H1 H2.
  destruct (create_staff_group d1 db db1 u1 Hready H1) as [g1 [E1 C1]].
  apply (create_staff_group d2 db1 db2 u2); [|exact H2].
  intros g Hg. rewrite E1 in Hg. destruct Hg as [<-|[]]. exact C1.
Qed.

Lemma two_sellers_one_staff_group_witness :
  exists g,
    staff_groups
      (fst (SellerSerializer.create Shop.bob
              (fst (SellerSerializer.create Shop.ann Shop.db)))) = [g]
    /\ carries_fixed_set
         (fst (SellerSerializer.create Shop.bob
                 (fst (SellerSerializer.create Shop.ann Shop.db)))) g = true.
Proof.
  eapply (two_sellers_one_staff_group Shop.db _ _ Shop.ann Shop.bob).
  - intros g Hg. vm_compute in Hg. destruct Hg.
  - vm_compute. reflexivity.
  - vm_compute. reflexivity.
Defined.

(** C7, as stated, fails: on a store that already has a group named Staff
    with no permission, two sellers are created successfully and the one
    group named Staff still has no permission. *)
Lemma two_sellers_bare_staff_group :
  exists db1 db2 u1 u2 g,
    SellerSerializer.create Shop.ann Shop.db_with_bare_staff = (db1, Ok u1)
    /\ SellerSerializer.create Shop.bob db1 = (db2, Ok u2)
    /\ staff_groups db2 = [g]
    /\ group_permissions db2 = []
    /\ carries_fixed_set db2 g = false.
Proof.
  do 5 eexists.
  split; [vm_compute; reflexivity|].
  split; [vm_compute; reflexivity|].
  split; [vm_compute; reflexivity|].
  split; vm_compute; reflexivity.
Qed.

(** ** The route table (C9) *)

Lemma append_inj_l (s s' t t' : string) :
  String.length s = String.length s' ->
  String.append s t = String.append s' t' -> s = s'.
Proof.
  revert s'. induction s as [|c s IH]; intros [|c' s'] Hlen H;
    try discriminate Hlen; [reflexivity|].
  simpl in H. injection H as -> H. f_equal. apply IH; [|exact H].
  simpl in Hlen. congruence.
Qed.

Lemma length_append (s t : string) :
  String.length (String.append s t)
  = (String.length s + String.length t)%nat.
Proof. induction s as [|c s IH]; simpl; [reflexivity|]. now rewrite IH. Qed.

Lemma format_urls_inj (e e' : string) :
  Urls.format_urls e = Urls.format_urls e' -> e = e'.
Proof.
  unfold Urls.format_urls. intros H. simpl in H. injection H as H.
  apply (append_inj_l e e' ".urls" ".urls"); [|exact H].
  apply (f_equal String.length) in H. rewrite !length_append in H.
  simpl in H. lia.
Qed.

Lemma root_include_inj (e e' : string) :
  root_include e = root_include e' -> e = e'.
Proof.
  intros H. apply format_urls_inj.
  exact (f_equal Urls.urlconf_module H).
Qed.

Lemma NoDup_map_injective {A B} (f : A -> B) (l : list A) :
  (forall x y, f x = f y -> x = y) -> NoDup l -> NoDup (map f l).
Proof.
  intros Hinj. induction 1 as [|x l Hx Hnd IH]; simpl; constructor;
    [|exact IH].
  intros Hin. apply in_map_iff in Hin. destruct Hin as [y [E Hy]].
  apply Hinj in E. now subst y.
Qed.

Lemma includes_of_importable (env : Urls.Env) (l : list string) :
  (forall e, In e l -> Urls.importable env (Urls.format_urls e) = true) ->
  map_result
    (fun entity =>
       (let? included := Urls.include env (Urls.format_urls entity) in
        Ok (Urls.url "^" included))%result) l
  = Ok (map root_include l).
Proof.
  induction l as [|e l IH]; intros H; simpl; [reflexivity|].
  unfold Urls.include at 1. rewrite (H e (or_introl eq_refl)). simpl.
  rewrite IH by (intros; apply H; now right). reflexivity.
Qed.

Lemma imports_of_importable (env : Urls.Env) (l : list string) :
  (forall m, In m l -> Urls.importable env m = true) ->
  map_result (Urls.import_module env) l = Ok l.
Proof.
  induction l as [|m l IH]; intros H; simpl; [reflexivity|].
  unfold Urls.import_module at 1. rewrite (H m (or_introl eq_refl)). simpl.
  rewrite IH by (intros; apply H; now right). reflexivity.
Qed.

(** C9. When the imports of [urls.py] succeed (the views of the cart
    application among them), the API directory can be listed and the route
    table of every application found there can be imported, [urlpatterns]
    is built, and it holds, under the root prefix and once each, the route
    tables of the entries of the listing that are directories and are not
    named [__pycache__]: nothing else. *)
Theorem urlpatterns_of_subdirectories (env : Urls.Env) (BASE_DIR : string)
    (names : list string) :
  (forall m, In m Urls.imports -> Urls.importable env m = true) ->
  Urls.listdir env (Urls.join BASE_DIR [Urls.API_DIR]) = Ok names ->
  NoDup names ->
  (forall d, In d names -> is_entity env BASE_DIR d = true ->
             Urls.importable env (Urls.format_urls d) = true) ->
  exists patterns,
    Urls.urlpatterns env BASE_DIR = Ok patterns
    /\ patterns = map root_include (filter (is_entity env BASE_DIR) names)
    /\ NoDup patterns
    /\ (forall d, In (root_include d) patterns <->
                  In d names
                  /\ Urls.isdir env (Urls.join BASE_DIR [Urls.API_DIR; d])
                     = true
                  /\ d <> "__pycache__")
    /\ (forall pattern, In pattern patterns ->
          Urls.regex pattern = "^"
          /\ exists d, In d names /\ is_entity env BASE_DIR d = true
                       /\ pattern = root_include d).
Proof.
  intros Himports Hls Hnd Himp.
  exists (map root_include (filter (is_entity env BASE_DIR) names)).
  split; [|split; [reflexivity|split; [|split]]].
  - unfold Urls.urlpatterns, Urls.entities.
    rewrite (imports_of_importable env Urls.imports Himports).
    rewrite Hls. cbn [rbind].
    change (filter _ names) with (filter (is_entity env BASE_DIR) names).
    apply includes_of_importable. intros e He.
    apply filter_In in He. destruct He. now apply Himp.
  - apply NoDup_map_injective; [exact root_include_inj|].
    now apply NoDup_filter.
  - intros d. rewrite in_map_iff. split.
    + intros [d' [E Hd']]. apply root_include_inj in E. subst d'.
      apply filter_In in Hd'. destruct Hd' as [Hin He].
      unfold is_entity in He. apply andb_true_iff in He.
      destruct He as [Hdir Hname]. apply negb_true_iff in Hname.
      apply String.eqb_neq in Hname. auto.
    + intros [Hin [Hdir Hname]]. exists d. split; [reflexivity|].
      apply filter_In. split; [exact Hin|]. unfold is_entity.
      rewrite Hdir. apply String.eqb_neq in Hname. now rewrite Hname.
  - intros pattern Hp. apply in_map_iff in Hp.
    destruct Hp as [d [<- Hd]]. apply filter_In in Hd. destruct Hd.
    split; [reflexivity|]. now exists d.
Qed.

Lemma urlpatterns_of_subdirectories_witness :
  exists patterns,
    Urls.urlpatterns Shop.env Shop.base_dir = Ok patterns
    /\ patterns = map root_include
                      (filter (is_entity Shop.env Shop.base_dir)
                              ["cart"; "__pycache__"; "products";
                               "__init__.py"; "orders"])
    /\ NoDup patterns
    /\ (forall d, In (root_include d) patterns <->
                  In d ["cart"; "__pycache__"; "products"; "__init__.py";
                        "orders"]
                  /\ Urls.isdir Shop.env
                       (Urls.join Shop.base_dir [Urls.API_DIR; d]) = true
                  /\ d <> "__pycache__")
    /\ (forall pattern, In pattern patterns ->
          Urls.regex pattern = "^"
          /\ exists d, In d ["cart"; "__pycache__"; "products";
                             "__init__.py"; "orders"]
                       /\ is_entity Shop.env Shop.base_dir d = true
                       /\ pattern = root_include d).
Proof.
  apply (urlpatterns_of_subdirectories Shop.env Shop.base_dir).
  - intros m Hm. simpl in Hm.
    repeat (destruct Hm as [<-|Hm]; [reflexivity|]). destruct Hm.
  - vm_compute. reflexivity.
  - repeat constructor; simpl; intros H;
      repeat (destruct H as [H|H]; [discriminate H|]); exact H.
  - intros d Hd. simpl in Hd.
    repeat (destruct Hd as [<-|Hd]; [vm_compute; auto|]).
    destruct Hd.
Defined.

(** * Further properties of the serializers *)

(** ** Prices and images *)

(** X1. The [prices] of a product are both [None] exactly when the product
    has no unit; otherwise both are decimals and [min] is at most [max]. *)
Theorem get_prices_none_or_ordered (db : DB) (obj : Product) :
  (Related.unit_set db obj = []
   /\ ProductListSerializer.get_prices db obj
      = VDict [("min", VNone); ("max", VNone)])
  \/ (Related.unit_set db obj <> []
      /\ exists lo hi,
           ProductListSerializer.get_prices db obj
           = VDict [("min", VDecimal lo); ("max", VDecimal hi)]
           /\ lo <= hi).
Proof.
  unfold ProductListSerializer.get_prices.
  destruct (Related.unit_set db obj) as [|u us]; [left; auto|right].
  split; [discriminate|]. simpl map.
  unfold QuerySet.aggregate_min, QuerySet.aggregate_max.
  destruct (fold_left_min_least (map price us) (price u)) as [_ Hlo].
  destruct (fold_left_max_greatest (map price us) (price u)) as [_ Hhi].
  eexists _, _. split; [reflexivity|].
  specialize (Hlo (price u) (or_introl eq_refl)).
  specialize (Hhi (price u) (or_introl eq_refl)). lia.
Qed.

(** X2. The image of a unit in an order or cart entry is [None] when the
    unit has no image; otherwise it is the URL of one of the unit's images,
    and of a main-flagged one whenever the unit has a main-flagged image. *)
Theorem UnitForOrderDetail_get_image_prefers_main (db : DB) (obj : Unit) :
  (Related.unitimage_set db obj = [] /\
   UnitForOrderDetail.get_image db obj = VNone)
  \/ (exists i,
        In i (Related.unitimage_set db obj)
        /\ UnitForOrderDetail.get_image db obj = VStr (image_url i)
        /\ (existsb is_main (Related.unitimage_set db obj) = is_main i)).
Proof.
  unfold UnitForOrderDetail.get_image. rewrite first_order_by_is_main.
  destruct (find is_main (Related.unitimage_set db obj)) as [m|] eqn:Ef.
  - right. exists m. destruct (find_some _ _ Ef) as [Hin Hm].
    split; [exact Hin|]. split; [reflexivity|]. rewrite Hm.
    apply existsb_exists. now exists m.
  - destruct (Related.unitimage_set db obj) as [|i l] eqn:Ei; [left; auto|].
    right. exists i. split; [now left|]. split; [reflexivity|].
    assert (Hi : is_main i = false) by (apply (find_none _ _ Ef); now left).
    rewrite Hi. destruct (existsb is_main (i :: l)) eqn:Ex; [|reflexivity].
    apply existsb_exists in Ex. destruct Ex as [x [Hx Hmx]].
    rewrite (find_none _ _ Ef x Hx) in Hmx. discriminate.
Qed.

(** X3. For a product with a single unit, the image of the list view is the
    image that the order and cart entries show for that unit. *)
Theorem get_image_of_single_unit (db : DB) (obj : Product) (u : Unit) :
  Related.unit_set db obj = [u] ->
  ProductListSerializer.get_image db obj = UnitForOrderDetail.get_image db u.
Proof.
  intros H. unfold ProductListSerializer.get_image,
    UnitForOrderDetail.get_image.
  rewrite H. simpl flat_map. rewrite app_nil_r.
  destruct (QuerySet.first (QuerySet.order_by unit_id _)) as [x|] eqn:E.
  - apply first_order_by_least in E. destruct E as [Hin _].
    apply in_map_iff in Hin. destruct Hin as [_ [-> _]]. reflexivity.
  - apply first_order_by_None in E.
    destruct (Related.unitimage_set db u); [reflexivity|discriminate E].
Qed.

Lemma get_image_of_single_unit_witness :
  ProductListSerializer.get_image
    (set_units Shop.db [Shop.shirt_s; Shop.shirt_m; Shop.mug_1]) Shop.mug
  = UnitForOrderDetail.get_image
      (set_units Shop.db [Shop.shirt_s; Shop.shirt_m; Shop.mug_1]) Shop.mug_1.
Proof.
  apply (get_image_of_single_unit
           (set_units Shop.db [Shop.shirt_s; Shop.shirt_m; Shop.mug_1])
           Shop.mug Shop.mug_1).
  reflexivity.
Defined.

(** ** Entries of an order *)

Lemma dict_keys_set_present (k : string) (v : value)
    (d : list (string * value)) :
  In k (dict_keys d) -> dict_keys (dict_set k v d) = dict_keys d.
Proof.
  induction d as [|[k' v'] d IH]; intros Hin; [destruct Hin|].
  simpl. destruct (String.eqb_spec k k') as [_|Hne]; [reflexivity|].
  simpl. f_equal. apply IH. destruct Hin as [E|Hin]; [|exact Hin].
  simpl in E. congruence.
Qed.

Lemma dict_get_set_same (k : string) (v : value) (d : list (string * value)) :
  dict_get k (dict_set k v d) = Some v.
Proof.
  induction d as [|[k' v'] d IH]; simpl.
  - now rewrite String.eqb_refl.
  - destruct (String.eqb_spec k k') as [<-|Hne]; simpl.
    + now rewrite String.eqb_refl.
    + apply String.eqb_neq in Hne. now rewrite Hne.
Qed.

Lemma dict_get_set_other (k k0 : string) (v : value)
    (d : list (string * value)) :
  k0 <> k -> dict_get k0 (dict_set k v d) = dict_get k0 d.
Proof.
  intros Hne. induction d as [|[k' v'] d IH]; simpl.
  - apply String.eqb_neq in Hne. now rewrite Hne.
  - destruct (String.eqb_spec k k') as [<-|Hk]; simpl.
    + apply String.eqb_neq in Hne. now rewrite Hne.
    + now rewrite IH.
Qed.

(** A model serializer that returns renders the names of [Meta.fields], in
    their order. *)
Lemma ModelSerializer_data_keys {A}
    (declared : string -> option (A -> result value))
    (column : string -> option (A -> value)) (fields : list string) (obj : A)
    (d : list (string * value)) :
  ModelSerializer.data declared column fields obj = Ok d ->
  dict_keys d = fields.
Proof.
  unfold ModelSerializer.data. revert d.
  induction fields as [|f fields IH]; intros d; simpl.
  - intros [= <-]. reflexivity.
  - destruct (ModelSerializer.field declared column f obj) as [v|e];
      [|discriminate]. simpl.
    destruct (map_result _ fields) as [d'|e]; [|discriminate]. simpl.
    intros [= <-]. simpl. f_equal. now apply IH.
Qed.

(** X4. When the line item references a unit of the store that the entry
    serializer renders, the [unit] entry of the line item has the fields of
    that rendering in the same order, with the same values except for
    [price], which is the price stored on the line item. *)
Theorem get_unit_overrides_price_only (db : DB) (obj : OrderUnit) (u : Unit)
    (data : list (string * value)) :
  Related.orderunit_unit_obj db obj = Ok u ->
  UnitForOrderDetail.data db u = Ok data ->
  exists d,
    OrderUnitSerializer.get_unit db obj = Ok (VDict d)
    /\ dict_keys d = UnitForOrderDetail.fields
    /\ dict_get "price" d = Some (VDecimal (unit_price obj))
    /\ (forall k, k <> "price" -> dict_get k d = dict_get k data).
Proof.
  intros Hu Hdata. unfold OrderUnitSerializer.get_unit.
  rewrite Hu. cbn [rbind]. rewrite Hdata. cbn [rbind].
  eexists. split; [reflexivity|].
  pose proof (ModelSerializer_data_keys _ _ _ _ _ Hdata) as Hkeys.
  split; [|split].
  - rewrite dict_keys_set_present; [exact Hkeys|].
    rewrite Hkeys. simpl. auto 6.
  - apply dict_get_set_same.
  - intros k Hk. now apply dict_get_set_other.
Qed.

Lemma get_unit_overrides_price_only_witness :
  exists d,
    OrderUnitSerializer.get_unit Shop.db Shop.line_1 = Ok (VDict d)
    /\ dict_keys d = UnitForOrderDetail.fields
    /\ dict_get "price" d = Some (VDecimal 1400)
    /\ (forall k, k <> "price" ->
          dict_get k d =
          dict_get k [("title", VStr "T-shirt");
                      ("properties",
                       VList [VDict [("name", VStr "Size");
                                     ("value", VStr "S")];
                              VDict [("name", VStr "Color");
                                     ("value", VStr "White")]]);
                      ("image", VStr "/media/ts-s-side.jpg");
                      ("product_id", VInt 1);
                      ("price", VDecimal 1500);
                      ("sku", VStr "TS-S")]).
Proof.
  apply (get_unit_overrides_price_only Shop.db Shop.line_1 Shop.shirt_s).
  - vm_compute. reflexivity.
  - vm_compute. reflexivity.
Defined.

Lemma map_result_Forall2 {A B} (f : A -> result B) (R : A -> B -> Prop)
    (l : list A) :
  (forall x, In x l -> exists y, f x = Ok y /\ R x y) ->
  exists ys, map_result f l = Ok ys /\ Forall2 R l ys.
Proof.
  induction l as [|x l IH]; intros H; simpl.
  - exists []. split; [reflexivity|constructor].
  - destruct (H x (or_introl eq_refl)) as [y [-> Hy]].
    destruct IH as [ys [-> Hys]]; [intros; apply H; now right|].
    exists (y :: ys). split; [reflexivity|]. now constructor.
Qed.

(** The line item references a unit of the store whose product and
    property names resolve. *)
Lemma get_unit_fields (db : DB) (obj : OrderUnit) (u : Unit) (p : Product) :
  Related.orderunit_unit_obj db obj = Ok u ->
  Related.unit_product_obj db u = Ok p ->
  values_resolve db u ->
  exists props,
    OrderUnitSerializer.get_unit db obj =
      Ok (VDict [("title", VStr (title p));
                 ("properties", VList props);
                 ("image", UnitForOrderDetail.get_image db u);
                 ("product_id", VInt (product_id p));
                 ("price", VDecimal (unit_price obj));
                 ("sku", VStr (sku u))]).
Proof.
  intros Hu Hp Hv.
  destruct (UnitSerializer_get_properties_total db u Hv) as [props Hprops].
  change (UnitSerializer.get_properties db u)
    with (UnitForOrderDetail.get_properties db u) in Hprops.
  exists props. unfold OrderUnitSerializer.get_unit.
  rewrite Hu. cbn [rbind].
  rewrite (UnitForOrderDetail_data_fields db u p props Hp Hprops).
  reflexivity.
Qed.

(** X5. When every line item of the order references a unit of the store
    whose product and property names resolve, the detail view of the order
    is built: it has the order's own columns and one entry per line item,
    in order, each with the item's quantity, the label of its status and a
    [unit] whose [price] is the price stored on the line item; and the
    number of entries is the [units_num] of the list view. *)
Theorem order_detail_lists_line_items (status_display : Z -> string)
    (db : DB) (obj : Order) :
  (forall ou, In ou (Related.orderunit_set db obj) ->
     exists u p, Related.orderunit_unit_obj db ou = Ok u
                 /\ Related.unit_product_obj db u = Ok p
                 /\ values_resolve db u) ->
  exists entries,
    OrderDetailSerializer.to_representation status_display db obj =
      Ok (VDict [("id", VInt (order_id obj));
                 ("created_at", VStr (created_at obj));
                 ("name", VStr (order_name obj));
                 ("address", VStr (order_address obj));
                 ("phone", VStr (order_phone obj));
                 ("units", VList entries)])
    /\ Forall2
         (fun ou entry =>
            exists unit_entry,
              entry = VDict [("quantity", VInt (quantity ou));
                             ("status", VStr (status_display (status ou)));
                             ("unit", VDict unit_entry)]
              /\ dict_get "price" unit_entry
                 = Some (VDecimal (unit_price ou)))
         (Related.orderunit_set db obj) entries
    /\ OrderListSerializer.get_units_num db obj
       = VInt (Z.of_nat (List.length entries)).
Proof.
  intros H.
  destruct (map_result_Forall2
              (OrderUnitSerializer.to_representation status_display db)
              (fun ou entry =>
                 exists unit_entry,
                   entry = VDict [("quantity", VInt (quantity ou));
                                  ("status",
                                   VStr (status_display (status ou)));
                                  ("unit", VDict unit_entry)]
                   /\ dict_get "price" unit_entry
                      = Some (VDecimal (unit_price ou)))
              (Related.orderunit_set db obj)) as [entries [Hmap Hall]].
  { intros ou Hou. destruct (H ou Hou) as [u [p [Hu [Hp Hv]]]].
    destruct (get_unit_fields db ou u p Hu Hp Hv) as [props Hget].
    eexists. split.
    - unfold OrderUnitSerializer.to_representation,
        ModelSerializer.to_representation, ModelSerializer.data,
        OrderUnitSerializer.fields.
      cbn [map_result]. unfold ModelSerializer.field.
      cbn [OrderUnitSerializer.declared OrderUnit_column].
      rewrite Hget. reflexivity.
    - eexists. split; reflexivity. }
  exists entries. split; [|split; [exact Hall|]].
  - unfold OrderDetailSerializer.to_representation,
      ModelSerializer.to_representation, ModelSerializer.data,
      OrderDetailSerializer.fields.
    cbn [map_result]. unfold ModelSerializer.field.
    cbn [OrderDetailSerializer.declared Order_column].
    unfold OrderDetailSerializer.units, ModelSerializer.many.
    rewrite Hmap. reflexivity.
  - unfold OrderListSerializer.get_units_num, QuerySet.count,
      Related.order_unit_set.
    rewrite length_flat_map_singletons.
    + now rewrite (Forall2_length Hall).
    + intros ou Hou. destruct (H ou Hou) as [u [_ [Hu _]]].
      exists u. now apply get_Ok_inv.
Qed.

Lemma order_detail_lists_line_items_witness :
  exists entries,
    OrderDetailSerializer.to_representation Shop.status_display Shop.db
                                            Shop.order_1 =
      Ok (VDict [("id", VInt 1);
                 ("created_at", VStr "2017-05-01T10:00:00Z");
                 ("name", VStr "Ann");
                 ("address", VStr "1 Main St");
                 ("phone", VStr "555-0100");
                 ("units", VList entries)])
    /\ Forall2
         (fun ou entry =>
            exists unit_entry,
              entry = VDict [("quantity", VInt (quantity ou));
                             ("status",
                              VStr (Shop.status_display (status ou)));
                             ("unit", VDict unit_entry)]
              /\ dict_get "price" unit_entry
                 = Some (VDecimal (unit_price ou)))
         (Related.orderunit_set Shop.db Shop.order_1) entries
    /\ OrderListSerializer.get_units_num Shop.db Shop.order_1
       = VInt (Z.of_nat (List.length entries)).
Proof.
  apply (order_detail_lists_line_items Shop.status_display Shop.db
           Shop.order_1).
  intros ou H. vm_compute in H.
  destruct H as [<-|[<-|[]]]; eexists; eexists;
    (split; [vm_compute; reflexivity|]);
    (split; [vm_compute; reflexivity|]);
    intros v Hv; vm_compute in Hv;
    repeat (destruct Hv as [<-|Hv]; [eexists; vm_compute; reflexivity|]);
    destruct Hv.
Defined.

(** ** Cart validation *)

(** X6. Validation does not depend on how much is asked below what passes:
    when a submission for a SKU passes, every submission for the same SKU
    with a smaller quantity passes too; and what validation returns is the
    data it was given. *)
Theorem validate_passes_smaller_quantities (db : DB) (s : string) (q q' : Z)
    (d : CartUnitSerializer.Data) :
  q' <= q ->
  CartUnitSerializer.validate db
    {| CartUnitSerializer.data_sku := s;
       CartUnitSerializer.data_quantity := q |} = Ok d ->
  d = {| CartUnitSerializer.data_sku := s;
         CartUnitSerializer.data_quantity := q |}
  /\ CartUnitSerializer.validate db
       {| CartUnitSerializer.data_sku := s;
          CartUnitSerializer.data_quantity := q' |}
     = Ok {| CartUnitSerializer.data_sku := s;
             CartUnitSerializer.data_quantity := q' |}.
Proof.
  intros Hle. unfold CartUnitSerializer.validate. simpl.
  destruct (QuerySet.get _ (units db)) as [u|[]]; try discriminate.
  destruct (Z.ltb_spec (num_in_stock u) q); [discriminate|].
  intros [= <-]. split; [reflexivity|].
  destruct (Z.ltb_spec (num_in_stock u) q'); [lia|reflexivity].
Qed.

Lemma validate_passes_smaller_quantities_witness :
  CartUnitSerializer.validate Shop.db
    {| CartUnitSerializer.data_sku := "MUG-1";
       CartUnitSerializer.data_quantity := 2 |}
  = Ok {| CartUnitSerializer.data_sku := "MUG-1";
          CartUnitSerializer.data_quantity := 2 |}.
Proof.
  apply (validate_passes_smaller_quantities Shop.db "MUG-1" 5 2
           {| CartUnitSerializer.data_sku := "MUG-1";
              CartUnitSerializer.data_quantity := 5 |}).
  - lia.
  - vm_compute. reflexivity.
Defined.

(** X7. A unit that is out of stock cannot be put in the cart: with unique
    SKUs, whatever quantity is submitted for its SKU, or none, the
    submission is refused with a validation error, by the quantity field or
    by [validate]. *)
Theorem out_of_stock_is_refused (db : DB) (u : Unit) (submitted : option Z) :
  NoDup (map sku (units db)) ->
  In u (units db) ->
  num_in_stock u <= 0 ->
  exists msg,
    rbind (CartUnitSerializer.quantity_field submitted)
          (fun q => CartUnitSerializer.validate db
                      {| CartUnitSerializer.data_sku := sku u;
                         CartUnitSerializer.data_quantity := q |})
    = Raise (ValidationError msg).
Proof.
  intros Hnd Hin Hstock.
  assert (Hv : forall q, 1 <= q ->
            CartUnitSerializer.validate db
              {| CartUnitSerializer.data_sku := sku u;
                 CartUnitSerializer.data_quantity := q |}
            = Raise (ValidationError "There are not enough units in stock")).
  { intros q Hq. unfold CartUnitSerializer.validate, QuerySet.get. simpl.
    rewrite (filter_unique_key sku _ u Hnd Hin).
    destruct (Z.ltb_spec (num_in_stock u) q); [reflexivity|lia]. }
  unfold CartUnitSerializer.quantity_field.
  destruct submitted as [q|].
  - destruct (Z.ltb_spec q 1); simpl.
    + eexists. reflexivity.
    + eexists. apply Hv. lia.
  - simpl. eexists. apply Hv. lia.
Qed.

Lemma out_of_stock_is_refused_witness :
  exists msg,
    rbind (CartUnitSerializer.quantity_field None)
          (fun q => CartUnitSerializer.validate Shop.db
                      {| CartUnitSerializer.data_sku := sku Shop.shirt_m;
                         CartUnitSerializer.data_quantity := q |})
    = Raise (ValidationError msg).
Proof.
  apply (out_of_stock_is_refused Shop.db Shop.shirt_m None).
  - simpl. repeat constructor; simpl; intros H;
      repeat (destruct H as [H|H]; [discriminate H|]); exact H.
  - simpl. auto.
  - simpl. lia.
Defined.

(** ** Accounts *)

Lemma bind_inv {A B} (m : M A) (f : A -> M B) (db db' : DB) (r : result B) :
  bind m f db = (db', r) ->
  (exists db1 a, m db = (db1, Ok a) /\ f a db1 = (db', r))
  \/ (exists e, m db = (db', Raise e) /\ r = Raise e).
Proof.
  unfold bind. destruct (m db) as [db1 [a|e]]; intros H.
  - left. now exists db1, a.
  - right. injection H as <- <-. now exists e.
Qed.

Lemma extends_rows_refl {A} (l : list A) : extends_rows l l.
Proof. exists []. now rewrite app_nil_r. Qed.

Lemma extends_rows_trans {A} (l1 l2 l3 : list A) :
  extends_rows l1 l2 -> extends_rows l2 l3 -> extends_rows l1 l3.
Proof.
  intros [a ->] [b ->]. exists (a ++ b). now rewrite app_assoc.
Qed.

Lemma extends_rows_app {A} (l a : list A) : extends_rows l (l ++ a).
Proof. now exists a. Qed.

Lemma adds_beside_users_refl (db : DB) : adds_beside_users db db.
Proof. repeat split; apply extends_rows_refl. Qed.

Lemma adds_beside_users_trans (db1 db2 db3 : DB) :
  adds_beside_users db1 db2 -> adds_beside_users db2 db3 ->
  adds_beside_users db1 db3.
Proof.
  intros [Hc [Hg [Hl [Hu Hs]]]] [Hc' [Hg' [Hl' [Hu' Hs']]]].
  split; [congruence|].
  repeat split; eapply extends_rows_trans; eassumption.
Qed.

Lemma adds_no_user_refl (db : DB) : adds_no_user db db.
Proof. split; [apply adds_beside_users_refl|reflexivity]. Qed.

Lemma adds_no_user_trans (db1 db2 db3 : DB) :
  adds_no_user db1 db2 -> adds_no_user db2 db3 -> adds_no_user db1 db3.
Proof.
  intros [H E] [H' E']. split; [|congruence].
  eapply adds_beside_users_trans; eassumption.
Qed.

(** A loop is related to its start as its rounds are, however it ends. *)
Lemma for_each_preorder {A} (R : DB -> DB -> Prop) (body : A -> M unit)
    (l : list A) :
  (forall db, R db db) ->
  (forall db1 db2 db3, R db1 db2 -> R db2 db3 -> R db1 db3) ->
  (forall x db db' r, body x db = (db', r) -> R db db') ->
  forall db db' r, for_each l body db = (db', r) -> R db db'.
Proof.
  intros Hrefl Htrans Hbody. induction l as [|x l IH]; intros db db' r; simpl.
  - intros [= <- _]. apply Hrefl.
  - intros H. apply bind_inv in H.
    destruct H as [[db1 [[] [Hx Hrest]]]|[e [Hx _]]].
    + eapply Htrans; [eapply Hbody|eapply IH]; eassumption.
    + eapply Hbody; eassumption.
Qed.

Lemma grant_adds_no_user (g : Group) (ct perm : string) (db db' : DB)
    (r : result unit) :
  grant g ct perm db = (db', r) -> adds_no_user db db'.
Proof.
  unfold grant, bind, Manager.Permission_get, Manager.permissions_add.
  destruct (QuerySet.get _ _) as [p|e].
  - destruct (existsb _ _); intros [= <- _].
    + apply adds_no_user_refl.
    + repeat split; simpl; try apply extends_rows_refl.
      apply extends_rows_app.
  - intros [= <- _]. apply adds_no_user_refl.
Qed.

Lemma Group_create_adds_no_user (name : string) (db db' : DB)
    (r : result Group) :
  Manager.Group_create name db = (db', r) -> adds_no_user db db'.
Proof.
  unfold Manager.Group_create. destruct (existsb _ _); intros [= <- _].
  - apply adds_no_user_refl.
  - repeat split; simpl; try apply extends_rows_refl.
    apply extends_rows_app.
Qed.

Lemma get_staff_group_adds_no_user (db db' : DB) (r : result Group) :
  SellerSerializer.get_staff_group db = (db', r) -> adds_no_user db db'.
Proof.
  unfold SellerSerializer.get_staff_group, Manager.Group_get.
  destruct (QuerySet.get _ (groups db)) as [g|e].
  - intros [= <- _]. apply adds_no_user_refl.
  - destruct e; try (intros [= <- _]; apply adds_no_user_refl).
    intros H. apply bind_inv in H.
    destruct H as [[db1 [g [Hc H]]]|[e [Hc _]]];
      [|eapply Group_create_adds_no_user; eassumption].
    apply Group_create_adds_no_user in Hc.
    eapply adds_no_user_trans; [exact Hc|].
    apply bind_inv in H.
    assert (Hloop : forall db2 r2,
              for_each SellerSerializer.content_types
                (fun ct => for_each (snd ct) (grant g (fst ct))) db1
              = (db2, r2) -> adds_no_user db1 db2).
    { apply for_each_preorder;
        [apply adds_no_user_refl|apply adds_no_user_trans|].
      intros ct. apply for_each_preorder;
        [apply adds_no_user_refl|apply adds_no_user_trans|].
      intros perm. apply grant_adds_no_user. }
    destruct H as [[db2 [[] [Hl H]]]|[e [Hl _]]].
    + injection H as <- _. eapply Hloop. exact Hl.
    + eapply Hloop. exact Hl.
Qed.

Lemma groups_add_adds_no_user (u : User) (g : Group) (db db' : DB)
    (r : result unit) :
  Manager.groups_add u g db = (db', r) -> adds_no_user db db'.
Proof.
  unfold Manager.groups_add. destruct (existsb _ _); intros [= <- _].
  - apply adds_no_user_refl.
  - repeat split; simpl; try apply extends_rows_refl.
    apply extends_rows_app.
Qed.

Lemma Seller_create_adds_no_user (u : User) (name address : string)
    (db db' : DB) (r : result Seller) :
  Manager.Seller_create u name address db = (db', r) -> adds_no_user db db'.
Proof.
  unfold Manager.Seller_create. destruct (existsb _ _); intros [= <- _].
  - apply adds_no_user_refl.
  - repeat split; simpl; try apply extends_rows_refl.
    apply extends_rows_app.
Qed.

Lemma next_id_fresh (ids : list Z) (x : Z) :
  In x ids -> x < QuerySet.next_id ids.
Proof.
  unfold QuerySet.next_id. induction ids as [|a ids IH]; intros H;
    [destruct H|].
  cbn [fold_right]. destruct H as [->|H]; [lia|]. specialize (IH H). lia.
Qed.

Lemma adds_beside_users_set_users (db : DB) (x : list User) :
  adds_beside_users db (set_users db x).
Proof. repeat split; simpl; apply extends_rows_refl. Qed.

Lemma User_create_cases (email : string) (db db' : DB) (r : result User) :
  Manager.User_create email email db = (db', r) ->
  (r = Raise IntegrityError /\ db' = db)
  \/ (r = Ok (new_user db email NoPassword)
      /\ db' = set_users db (users db ++ [new_user db email NoPassword])).
Proof.
  unfold Manager.User_create. destruct (existsb _ _); intros [= <- <-];
    [left|right]; split; reflexivity.
Qed.

(** Saving the account that was just inserted, with its password set,
    replaces that row and no other. *)
Lemma User_save_new (db0 db : DB) (email raw : string) :
  users db = users db0 ++ [new_user db0 email NoPassword] ->
  Manager.User_save
    (Manager.set_password (new_user db0 email NoPassword) raw) db
  = (set_users db (users db0 ++ [new_user db0 email (Hashed raw)]), Ok tt).
Proof.
  intros Hu. unfold Manager.User_save. rewrite Hu.
  assert (Hex : existsb
            (fun u => user_id u =?
               user_id (Manager.set_password
                          (new_user db0 email NoPassword) raw))
            (users db0 ++ [new_user db0 email NoPassword]) = true).
  { apply existsb_exists. exists (new_user db0 email NoPassword).
    split; [apply in_or_app; right; now left|]. apply Z.eqb_refl. }
  rewrite Hex. f_equal. f_equal. rewrite map_app. f_equal.
  - rewrite <- (map_id (users db0)) at 2. apply map_ext_in.
    intros u Hin.
    assert (Hlt : user_id u < QuerySet.next_id (map user_id (users db0)))
      by (apply next_id_fresh; now apply in_map).
    destruct (Z.eqb_spec (user_id u)
                (user_id (Manager.set_password
                            (new_user db0 email NoPassword) raw)));
      [|reflexivity].
    simpl in e. lia.
  - simpl. rewrite Z.eqb_refl. reflexivity.
Qed.

(** What [create] leaves of a seller creation, however it ends: beside the
    users only added rows, and the users as they were or with the new
    account after them. *)
Lemma create_seller_trace (d : SellerSerializer.Data) (db db' : DB)
    (r : result User) :
  SellerSerializer.create d db = (db', r) ->
  adds_beside_users db db'
  /\ (users db' = users db
      \/ exists pw,
           users db' =
           users db ++ [new_user db (SellerSerializer.data_email d) pw]).
Proof.
  unfold SellerSerializer.create. intros H.
  apply bind_inv in H. destruct H as [[db1 [u1 [H1 H]]]|[e [H1 _]]].
  2:{ apply User_create_cases in H1.
      destruct H1 as [[_ ->]|[E _]]; [|discriminate E].
      split; [apply adds_beside_users_refl|now left]. }
  apply User_create_cases in H1.
  destruct H1 as [[E _]|[E ->]]; [discriminate E|]. injection E as ->.
  pose proof (adds_beside_users_set_users db
                (users db ++
                 [new_user db (SellerSerializer.data_email d) NoPassword]))
    as A1.
  apply bind_inv in H. destruct H as [[db2 [g [H2 H]]]|[e [H2 _]]].
  2:{ apply get_staff_group_adds_no_user in H2. destruct H2 as [A2 U2].
      split; [exact (adds_beside_users_trans _ _ _ A1 A2)|].
      right. exists NoPassword. exact U2. }
  apply get_staff_group_adds_no_user in H2. destruct H2 as [A2 U2].
  pose proof (adds_beside_users_trans _ _ _ A1 A2) as A02.
  apply bind_inv in H. destruct H as [[db3 [[] [H3 H]]]|[e [H3 _]]].
  2:{ apply groups_add_adds_no_user in H3. destruct H3 as [A3 U3].
      split; [exact (adds_beside_users_trans _ _ _ A02 A3)|].
      right. exists NoPassword. rewrite U3. exact U2. }
  apply groups_add_adds_no_user in H3. destruct H3 as [A3 U3].
  pose proof (adds_beside_users_trans _ _ _ A02 A3) as A03.
  assert (U03 : users db3 =
                users db ++
                [new_user db (SellerSerializer.data_email d) NoPassword])
    by (rewrite U3; exact U2).
  cbv beta zeta in H. unfold bind at 1 in H.
  rewrite (User_save_new db db3 _ (SellerSerializer.data_password d) U03)
    in H.
  pose proof (adds_beside_users_trans _ _ _ A03
                (adds_beside_users_set_users db3
                   (users db ++
                    [new_user db (SellerSerializer.data_email d)
                       (Hashed (SellerSerializer.data_password d))])))
    as A04.
  assert (Hend : forall db5 (r5 : result Seller),
            Manager.Seller_create
              (Manager.set_password
                 (new_user db (SellerSerializer.data_email d) NoPassword)
                 (SellerSerializer.data_password d))
              (SellerSerializer.data_seller_name d)
              (SellerSerializer.data_seller_address d)
              (set_users db3
                 (users db ++
                  [new_user db (SellerSerializer.data_email d)
                     (Hashed (SellerSerializer.data_password d))]))
            = (db5, r5) ->
            adds_beside_users db db5
            /\ (users db5 = users db
                \/ exists pw,
                     users db5 =
                     users db ++
                     [new_user db (SellerSerializer.data_email d) pw])).
  { intros db5 r5 H5. apply Seller_create_adds_no_user in H5.
    destruct H5 as [A5 U5].
    split; [exact (adds_beside_users_trans _ _ _ A04 A5)|].
    right. exists (Hashed (SellerSerializer.data_password d)). exact U5. }
  apply bind_inv in H. destruct H as [[db5 [s [H5 H]]]|[e [H5 _]]].
  - injection H as <- _. eapply Hend. exact H5.
  - eapply Hend. exact H5.
Qed.

(** X8. However a seller creation ends, it only adds rows: the catalogue,
    the orders and the permissions are as they were, and the groups, their
    permissions, the users, their groups and the sellers that were there
    are still there, unchanged and in place, with any new rows after
    them. *)
Theorem create_seller_only_adds_rows (d : SellerSerializer.Data) (db : DB) :
  catalogue (fst (SellerSerializer.create d db)) = catalogue db
  /\ extends_rows (groups db) (groups (fst (SellerSerializer.create d db)))
  /\ extends_rows (group_permissions db)
                  (group_permissions (fst (SellerSerializer.create d db)))
  /\ extends_rows (users db) (users (fst (SellerSerializer.create d db)))
  /\ extends_rows (user_groups db)
                  (user_groups (fst (SellerSerializer.create d db)))
  /\ extends_rows (sellers db) (sellers (fst (SellerSerializer.create d db))).
Proof.
  destruct (SellerSerializer.create d db) as [db' r] eqn:E. simpl.
  destruct (create_seller_trace d db db' r E)
    as [[Hc [Hg [Hl [Hug Hs]]]] Hu].
  repeat split; auto.
  destruct Hu as [->|[pw ->]];
    [apply extends_rows_refl|apply extends_rows_app].
Qed.

Lemma create_user_trace (d : UserSerializer.Data) (db : DB) :
  UserSerializer.create d db = (db, Raise IntegrityError)
  \/ UserSerializer.create d db =
     (set_users db
        (users db ++
         [new_user db (UserSerializer.data_email d)
            (Hashed (UserSerializer.data_password d))]),
      Ok (new_user db (UserSerializer.data_email d)
            (Hashed (UserSerializer.data_password d)))).
Proof.
  pose proof (User_save_new db
                (set_users db
                   (users db ++
                    [new_user db (UserSerializer.data_email d) NoPassword]))
                (UserSerializer.data_email d)
                (UserSerializer.data_password d) eq_refl) as Hsave.
  unfold UserSerializer.create, bind, Manager.User_create.
  destruct (existsb _ (users db)); [now left|right].
  fold (new_user db (UserSerializer.data_email d) NoPassword).
  rewrite Hsave. reflexivity.
Qed.

Lemma username_is_email_app (db db' : DB) (email : string) (pw : Password) :
  username_is_email db ->
  users db' = users db \/ users db' = users db ++ [new_user db email pw] ->
  username_is_email db'.
Proof.
  intros Hinv [E|E] u Hu; rewrite E in Hu; [now apply Hinv|].
  apply in_app_or in Hu. destruct Hu as [Hu|[<-|[]]]; [now apply Hinv|].
  reflexivity.
Qed.

(** X9. Both ways of creating an account keep the usernames equal to the
    emails: if every stored account has its email as username, this is
    still so after a user or a seller creation, however it ends. *)
Theorem creations_keep_username_is_email (db : DB)
    (seller : SellerSerializer.Data) (user : UserSerializer.Data) :
  username_is_email db ->
  username_is_email (fst (SellerSerializer.create seller db))
  /\ username_is_email (fst (UserSerializer.create user db)).
Proof.
  intros Hinv. split.
  - destruct (SellerSerializer.create seller db) as [db' r] eqn:E. simpl.
    destruct (create_seller_trace seller db db' r E) as [_ [Hu|[pw Hu]]].
    + exact (username_is_email_app db db' "" NoPassword Hinv
               (or_introl Hu)).
    + exact (username_is_email_app db db' _ pw Hinv (or_intror Hu)).
  - destruct (create_user_trace user db) as [E|E]; rewrite E; simpl.
    + exact Hinv.
    + eapply (username_is_email_app db); [exact Hinv|right; reflexivity].
Qed.

Lemma creations_keep_username_is_email_witness :
  username_is_email
    (fst (SellerSerializer.create Shop.bob
            (fst (SellerSerializer.create Shop.ann Shop.db)))).
Proof.
  apply (proj1 (creations_keep_username_is_email
                  (fst (SellerSerializer.create Shop.ann Shop.db))
                  Shop.bob
                  {| UserSerializer.data_email := "eve@example.com";
                     UserSerializer.data_password := "pw" |}
                  (proj1 (creations_keep_username_is_email Shop.db Shop.ann
                            {| UserSerializer.data_email := "eve@example.com";
                               UserSerializer.data_password := "pw" |}
                            (fun u (H : In u (users Shop.db)) =>
                               match H with end))))).
Defined.

(** X10. A successful seller creation returns the new account, stored after
    the accounts that were there: its username and its email are the
    submitted email and its password is the hash of the submitted one.  The
    account is linked to the one group named Staff, and a seller with the
    submitted name and address is stored for it. *)
Theorem create_seller_account (d : SellerSerializer.Data) (db db' : DB)
    (u : User) :
  SellerSerializer.create d db = (db', Ok u) ->
  u = new_user db (SellerSerializer.data_email d)
        (Hashed (SellerSerializer.data_password d))
  /\ users db' = users db ++ [u]
  /\ (exists g, staff_groups db' = [g]
                /\ In (user_id u, group_id g) (user_groups db'))
  /\ (exists s, In s (sellers db')
                /\ seller_user s = user_id u
                /\ seller_name s = SellerSerializer.data_seller_name d
                /\ seller_address s = SellerSerializer.data_seller_address d).
Proof.
  unfold SellerSerializer.create. intros H.
  apply bind_Ok_inv in H. destruct H as [db1 [u1 [H1 H]]].
  apply User_create_cases in H1.
  destruct H1 as [[E _]|[E ->]]; [discriminate E|]. injection E as ->.
  apply bind_Ok_inv in H. destruct H as [db2 [g [H2 H]]].
  pose proof (get_staff_group_adds_no_user _ _ _ H2) as [_ U2].
  assert (S2 : staff_groups db2 = [g]).
  { destruct (get_staff_group_cases _ _ _ H2) as [[E ->]|[_ [E _]]];
      exact E. }
  apply bind_Ok_inv in H. destruct H as [db3 [[] [H3 H]]].
  pose proof (groups_add_adds_no_user _ _ _ _ _ H3) as [_ U3].
  pose proof (groups_add_auth_view _ _ _ _ _ H3) as V3.
  assert (L3 : In (user_id (new_user db (SellerSerializer.data_email d)
                              NoPassword), group_id g) (user_groups db3)).
  { revert H3. unfold Manager.groups_add.
    destruct (existsb _ (user_groups db2)) eqn:Ex; intros [= <-].
    - apply existsb_exists in Ex. destruct Ex as [row [Hrow Heq]].
      apply pair_eqb_eq in Heq. now subst row.
    - simpl. apply in_or_app. right. now left. }
  assert (U03 : users db3 =
                users db ++
                [new_user db (SellerSerializer.data_email d) NoPassword])
    by (rewrite U3; exact U2).
  cbv beta zeta in H. unfold bind at 1 in H.
  rewrite (User_save_new db db3 _ (SellerSerializer.data_password d) U03)
    in H.
  apply bind_Ok_inv in H. destruct H as [db5 [s [H5 H]]].
  injection H as <- <-.
  pose proof (Seller_create_adds_no_user _ _ _ _ _ _ H5)
    as [[_ [_ [_ [[added Hug] _]]]] U5].
  pose proof (Seller_create_auth_view _ _ _ _ _ _ H5) as V5.
  split; [reflexivity|]. split; [rewrite U5; reflexivity|]. split.
  - exists g. split.
    + assert (V : auth_view db5 = auth_view db2)
        by (rewrite V5; exact V3).
      apply auth_view_staff in V. destruct V as [-> _]. exact S2.
    + rewrite Hug. apply in_or_app. left. exact L3.
  - revert H5. unfold Manager.Seller_create.
    destruct (existsb _ _); intros [= <- <-].
    eexists. split; [simpl; apply in_or_app; right; now left|].
    repeat split.
Qed.

Lemma create_seller_account_witness :
  exists u,
    u = new_user Shop.db "ann@example.com" (Hashed "s3cret")
    /\ users (fst (SellerSerializer.create Shop.ann Shop.db)) = [u]
    /\ (exists g,
          staff_groups (fst (SellerSerializer.create Shop.ann Shop.db)) = [g]
          /\ In (user_id u, group_id g)
                (user_groups (fst (SellerSerializer.create Shop.ann Shop.db))))
    /\ (exists s,
          In s (sellers (fst (SellerSerializer.create Shop.ann Shop.db)))
          /\ seller_user s = user_id u
          /\ seller_name s = "Ann"
          /\ seller_address s = "1 Main St").
Proof.
  eexists.
  eapply (create_seller_account Shop.ann Shop.db).
  vm_compute. reflexivity.
Defined.

(** X11. A seller creation for an email that is the username of a stored
    account raises [IntegrityError] and leaves the store as it was: the
    seller serializer has no uniqueness validator of its own. *)
Theorem create_seller_taken_email (d : SellerSerializer.Data) (db : DB)
    (u : User) :
  In u (users db) ->
  user_username u = SellerSerializer.data_email d ->
  SellerSerializer.create d db = (db, Raise IntegrityError).
Proof.
  intros Hin Hname.
  unfold SellerSerializer.create, bind at 1, Manager.User_create.
  assert (Hex : existsb
            (fun u0 => String.eqb (user_username u0)
                                  (SellerSerializer.data_email d))
            (users db) = true).
  { apply existsb_exists. exists u. split; [exact Hin|].
    now apply String.eqb_eq. }
  rewrite Hex. reflexivity.
Qed.

Lemma create_seller_taken_email_witness :
  SellerSerializer.create Shop.ann
    (fst (SellerSerializer.create Shop.ann Shop.db))
  = (fst (SellerSerializer.create Shop.ann Shop.db), Raise IntegrityError).
Proof.
  apply (create_seller_taken_email Shop.ann
           (fst (SellerSerializer.create Shop.ann Shop.db))
           (new_user Shop.db "ann@example.com" (Hashed "s3cret"))).
  - vm_compute. auto.
  - reflexivity.
Defined.

(** X12. When every stored account has its email as username and the email
    validator of the user serializer accepts the submitted email, the user
    creation succeeds: it stores one new account after the others, with the
    email as username, the hash of the password and a new primary key, and
    touches no other table. *)
Theorem create_user_after_validation (d : UserSerializer.Data) (db : DB) :
  username_is_email db ->
  UserSerializer.email_validator db (UserSerializer.data_email d)
  = Ok (UserSerializer.data_email d) ->
  exists u,
    UserSerializer.create d db = (set_users db (users db ++ [u]), Ok u)
    /\ user_username u = UserSerializer.data_email d
    /\ user_email u = UserSerializer.data_email d
    /\ user_password u = Hashed (UserSerializer.data_password d)
    /\ ~ In (user_id u) (map user_id (users db)).
Proof.
  intros Hinv Hval.
  exists (new_user db (UserSerializer.data_email d)
            (Hashed (UserSerializer.data_password d))).
  split; [|repeat split].
  - assert (Hex : existsb
              (fun u0 => String.eqb (user_username u0)
                                    (UserSerializer.data_email d))
              (users db) = false).
    { destruct (existsb _ (users db)) eqn:Ex; [exfalso|reflexivity].
      apply existsb_exists in Ex. destruct Ex as [u [Hu Hname]].
      apply String.eqb_eq in Hname. rewrite (Hinv u Hu) in Hname.
      revert Hval. unfold UserSerializer.email_validator.
      destruct (filter _ (users db)) as [|x l] eqn:Ef; [|discriminate].
      assert (Hf : In u (filter
                (fun u0 => String.eqb (user_email u0)
                                      (UserSerializer.data_email d))
                (users db))).
      { apply filter_In. split; [exact Hu|]. now apply String.eqb_eq. }
      rewrite Ef in Hf. destruct Hf. }
    pose proof (User_save_new db
                  (set_users db
                     (users db ++
                      [new_user db (UserSerializer.data_email d) NoPassword]))
                  (UserSerializer.data_email d)
                  (UserSerializer.data_password d) eq_refl) as Hsave.
    unfold UserSerializer.create, bind, Manager.User_create.
    rewrite Hex.
    fold (new_user db (UserSerializer.data_email d) NoPassword).
    rewrite Hsave. reflexivity.
  - intros Hin. apply next_id_fresh in Hin. simpl in Hin. lia.
Qed.

Lemma create_user_after_validation_witness :
  exists u,
    UserSerializer.create
      {| UserSerializer.data_email := "eve@example.com";
         UserSerializer.data_password := "pw" |} Shop.db
    = (set_users Shop.db (users Shop.db ++ [u]), Ok u)
    /\ user_username u = "eve@example.com"
    /\ user_email u = "eve@example.com"
    /\ user_password u = Hashed "pw"
    /\ ~ In (user_id u) (map user_id (users Shop.db)).
Proof.
  apply (create_user_after_validation
           {| UserSerializer.data_email := "eve@example.com";
              UserSerializer.data_password := "pw" |} Shop.db).
  - intros u H. destruct H.
  - reflexivity.
Defined.

(** A loop whose rounds end normally or raise [e] does so itself. *)
Lemma for_each_ok_or_raises {A} (body : A -> M unit) (I : DB -> Prop)
    (e : exn) (l : list A) :
  (forall x db, In x l -> I db ->
     exists db', I db' /\ (body x db = (db', Ok tt)
                           \/ body x db = (db', Raise e))) ->
  forall db, I db ->
    exists db', I db' /\ (for_each l body db = (db', Ok tt)
                          \/ for_each l body db = (db', Raise e)).
Proof.
  induction l as [|a l IH]; intros Hbody db HI; simpl.
  - exists db. split; [exact HI|now left].
  - destruct (Hbody a db (or_introl eq_refl) HI) as [db1 [HI1 [E|E]]];
      unfold bind; rewrite E.
    + apply IH; [|exact HI1]. intros x d Hx. apply Hbody. now right.
    + exists db1. split; [exact HI1|now right].
Qed.

(** It raises [e] when one of the rounds always does. *)
Lemma for_each_raises {A} (body : A -> M unit) (I : DB -> Prop)
    (e : exn) (l : list A) (bad : A) :
  (forall x db, In x l -> I db ->
     exists db', I db' /\ (body x db = (db', Ok tt)
                           \/ body x db = (db', Raise e))) ->
  In bad l ->
  (forall db, I db -> exists db', I db' /\ body bad db = (db', Raise e)) ->
  forall db, I db ->
    exists db', I db' /\ for_each l body db = (db', Raise e).
Proof.
  induction l as [|a l IH]; intros Hbody Hin Hbad db HI; [destruct Hin|].
  simpl. unfold bind.
  destruct (Hbody a db (or_introl eq_refl) HI) as [db1 [HI1 [E|E]]];
    rewrite E.
  - destruct Hin as [->|Hin].
    + destruct (Hbad db HI) as [db2 [_ E2]]. rewrite E2 in E.
      discriminate E.
    + apply IH; auto. intros x d Hx. apply Hbody. now right.
  - exists db1. auto.
Qed.

Lemma grant_ok_or_missing (g : Group) (ct perm : string) (db : DB) :
  (List.length
     (filter (fun p => String.eqb (permission_codename p)
                         (SellerSerializer.format_codename perm ct))
             (permissions db)) <= 1)%nat ->
  exists db',
    permissions db' = permissions db
    /\ (grant g ct perm db = (db', Ok tt)
        \/ grant g ct perm db = (db', Raise ObjectDoesNotExist)).
Proof.
  intros Hlen.
  destruct (filter _ (permissions db)) as [|p [|q l]] eqn:Ef.
  - exists db. split; [reflexivity|right].
    unfold grant, bind, Manager.Permission_get, QuerySet.get.
    rewrite Ef. reflexivity.
  - destruct (grant_total g ct perm db p Ef) as [db' [E Hp]].
    exists db'. auto.
  - simpl in Hlen. lia.
Qed.

Lemma grant_missing (g : Group) (ct perm : string) (db : DB) :
  (forall p, In p (permissions db) ->
     permission_codename p <> SellerSerializer.format_codename perm ct) ->
  grant g ct perm db = (db, Raise ObjectDoesNotExist).
Proof.
  intros Hnone.
  unfold grant, bind, Manager.Permission_get, QuerySet.get.
  rewrite filter_none; [reflexivity|].
  intros p Hp. apply String.eqb_neq. now apply Hnone.
Qed.

(** [get_staff_group] on a store with no group named Staff where a fixed
    codename has no permission. *)
Lemma get_staff_group_missing_permission (db : DB) (c : string) :
  staff_groups db = [] ->
  permissions_unambiguous db ->
  In c fixed_codenames ->
  (forall p, In p (permissions db) -> permission_codename p <> c) ->
  snd (SellerSerializer.get_staff_group db) = Raise ObjectDoesNotExist.
Proof.
  intros Hnone Hamb Hc Hmiss.
  unfold SellerSerializer.get_staff_group, Manager.Group_get, QuerySet.get.
  fold (staff_groups db). rewrite Hnone.
  unfold bind at 1. unfold Manager.Group_create.
  rewrite (existsb_false_of_filter_nil _ _ Hnone).
  set (g0 := {| group_id := QuerySet.next_id (map group_id (groups db));
                group_name := "Staff" |}).
  set (db1 := set_groups db (groups db ++ [g0])).
  unfold fixed_codenames in Hc. apply in_flat_map in Hc.
  destruct Hc as [ct [Hct Hc]]. apply in_map_iff in Hc.
  destruct Hc as [perm [<- Hperm]].
  set (I := fun d : DB => permissions d = permissions db).
  assert (Hround : forall ct' perm' d, In ct' SellerSerializer.content_types ->
            In perm' (snd ct') -> I d ->
            exists d', I d' /\ (grant g0 (fst ct') perm' d = (d', Ok tt)
                                \/ grant g0 (fst ct') perm' d
                                   = (d', Raise ObjectDoesNotExist))).
  { intros ct' perm' d Hct' Hperm' Hd.
    destruct (grant_ok_or_missing g0 (fst ct') perm' d) as [d' [Hp E]].
    - rewrite Hd. apply Hamb. unfold fixed_codenames. apply in_flat_map.
      exists ct'. split; [exact Hct'|]. apply in_map_iff. now exists perm'.
    - exists d'. split; [unfold I; congruence|exact E]. }
  destruct (for_each_raises
              (fun ct => for_each (snd ct) (grant g0 (fst ct)))
              I ObjectDoesNotExist SellerSerializer.content_types ct)
    with (db := db1) as [db2 [_ E]].
  - intros ct' d Hct' Hd.
    apply (for_each_ok_or_raises (grant g0 (fst ct')) I); [|exact Hd].
    intros perm' d' Hperm' Hd'. now apply Hround.
  - exact Hct.
  - intros d Hd.
    apply (for_each_raises (grant g0 (fst ct)) I ObjectDoesNotExist
             (snd ct) perm); [|exact Hperm| |exact Hd].
    + intros perm' d' Hperm' Hd'. now apply Hround.
    + intros d' Hd'. exists d'. split; [exact Hd'|].
      apply grant_missing. rewrite Hd'. exact Hmiss.
  - reflexivity.
  - unfold bind.
    change (for_each SellerSerializer.content_types _ db1)
      with (for_each SellerSerializer.content_types
              (fun ct => for_each (snd ct) (grant g0 (fst ct))) db1).
    rewrite E. reflexivity.
Qed.

(** X13. A missing permission is not masked: on a store with no group
    named Staff where some fixed codename has no permission (and none has
    two), a seller creation for a new email raises
    [ObjectDoesNotExist]. *)
Theorem create_seller_missing_permission (d : SellerSerializer.Data)
    (db : DB) (c : string) :
  staff_groups db = [] ->
  (forall u, In u (users db) ->
             user_username u <> SellerSerializer.data_email d) ->
  permissions_unambiguous db ->
  In c fixed_codenames ->
  (forall p, In p (permissions db) -> permission_codename p <> c) ->
  snd (SellerSerializer.create d db) = Raise ObjectDoesNotExist.
Proof.
  intros Hnone Hfresh Hamb Hc Hmiss.
  assert (Hex : existsb
            (fun u => String.eqb (user_username u)
                                 (SellerSerializer.data_email d))
            (users db) = false).
  { apply not_true_iff_false. intros Ex. apply existsb_exists in Ex.
    destruct Ex as [u [Hu Hn]]. apply String.eqb_eq in Hn.
    exact (Hfresh u Hu Hn). }
  unfold SellerSerializer.create. unfold bind at 1.
  unfold Manager.User_create. rewrite Hex.
  unfold bind at 1.
  pose proof (get_staff_group_missing_permission
                (set_users db
                   (users db ++
                    [new_user db (SellerSerializer.data_email d) NoPassword]))
                c Hnone Hamb Hc Hmiss) as E.
  fold (new_user db (SellerSerializer.data_email d) NoPassword).
  destruct (SellerSerializer.get_staff_group _) as [db2 r2].
  simpl in E. subst r2. reflexivity.
Qed.

Lemma create_seller_missing_permission_witness :
  snd (SellerSerializer.create Shop.ann Shop.db_uninstalled)
  = Raise ObjectDoesNotExist.
Proof.
  apply (create_seller_missing_permission Shop.ann Shop.db_uninstalled
           "add_unit").
  - reflexivity.
  - intros u H. destruct H.
  - intros c Hc. vm_compute in Hc.
    repeat (destruct Hc as [<-|Hc]; [vm_compute; lia|]). destruct Hc.
  - vm_compute. auto.
  - intros p Hp. vm_compute in Hp. destruct Hp as [<-|[]]. discriminate.
Defined.

(** ** The route table *)

Lemma map_result_raises {A B} (f : A -> result B) (e : exn) (l : list A)
    (bad : A) :
  (forall x, In x l -> (exists y, f x = Ok y) \/ f x = Raise e) ->
  In bad l -> f bad = Raise e ->
  map_result f l = Raise e.
Proof.
  induction l as [|a l IH]; intros Hall Hin Hbad; [destruct Hin|].
  simpl. destruct (Hall a (or_introl eq_refl)) as [[y E]|E]; rewrite E;
    [|reflexivity].
  simpl. destruct Hin as [->|Hin]; [congruence|].
  rewrite IH; auto. intros x Hx. apply Hall. now right.
Qed.

(** X14. A directory of the API directory whose route table cannot be
    imported makes the construction of [urlpatterns] fail with
    [ImportError]: no partial route table is built. *)
Theorem urlpatterns_import_error (env : Urls.Env) (BASE_DIR : string)
    (names : list string) (d : string) :
  Urls.listdir env (Urls.join BASE_DIR [Urls.API_DIR]) = Ok names ->
  In d names ->
  is_entity env BASE_DIR d = true ->
  Urls.importable env (Urls.format_urls d) = false ->
  Urls.urlpatterns env BASE_DIR = Raise ImportError.
Proof.
  intros Hls Hin Hent Himp.
  unfold Urls.urlpatterns, Urls.entities.
  assert (Himports :
            (exists l, map_result (Urls.import_module env) Urls.imports = Ok l)
            \/ map_result (Urls.import_module env) Urls.imports
               = Raise ImportError).
  { generalize Urls.imports. intros l. induction l as [|m l IH].
    - left. exists []. reflexivity.
    - cbn [map_result].
      assert (Hm : Urls.import_module env m = Ok m
                   \/ Urls.import_module env m = Raise ImportError)
        by (unfold Urls.import_module;
            destruct (Urls.importable env m); auto).
      destruct Hm as [->| ->]; cbn [rbind]; [|right; reflexivity].
      destruct IH as [[l' ->]| ->]; cbn [rbind];
        [left; eexists; reflexivity|right; reflexivity]. }
  destruct Himports as [[l ->]| ->]; [|reflexivity].
  cbn [rbind]. rewrite Hls. cbn [rbind].
  change (filter _ names) with (filter (is_entity env BASE_DIR) names).
  apply (map_result_raises _ ImportError _ d).
  - intros x _. unfold Urls.include.
    destruct (Urls.importable env (Urls.format_urls x)); simpl; eauto.
  - apply filter_In. now split.
  - unfold Urls.include. rewrite Himp. reflexivity.
Qed.

Lemma urlpatterns_import_error_witness :
  Urls.urlpatterns
    {| Urls.listdir := Urls.listdir Shop.env;
       Urls.isdir := Urls.isdir Shop.env;
       Urls.importable :=
         fun module =>
           existsb (String.eqb module)
                   (Urls.imports ++ ["restshop.api.cart.urls"]) |}
    Shop.base_dir
  = Raise ImportError.
Proof.
  apply (urlpatterns_import_error _ Shop.base_dir
           ["cart"; "__pycache__"; "products"; "__init__.py"; "orders"]
           "orders").
  - reflexivity.
  - simpl. auto 6.
  - reflexivity.
  - reflexivity.
Defined.

Lemma endswith_sep_append (s t : string) :
  t <> "" -> Urls.endswith_sep (String.append s t) = Urls.endswith_sep t.
Proof.
  intros Ht. induction s as [|c s IH]; [reflexivity|].
  simpl. rewrite IH.
  destruct (String.append s t) as [|c' s'] eqn:E; [|reflexivity].
  destruct s; [simpl in E; contradiction|discriminate E].
Qed.

(** X15. The path that [urls.py] tests with [isdir] for an entry of the
    listing is the path of the listed directory followed by the name of the
    entry, for every base directory and every name that does not start with
    a slash. *)
Theorem entity_path_is_inside_listed_directory (BASE_DIR directory : string) :
  String.prefix "/" directory = false ->
  Urls.join BASE_DIR [Urls.API_DIR; directory]
  = String.append (Urls.join BASE_DIR [Urls.API_DIR]) directory.
Proof.
  intros Hd. unfold Urls.join. simpl fold_left.
  assert (Hend : Urls.endswith_sep (Urls.join2 BASE_DIR Urls.API_DIR) = true).
  { unfold Urls.join2. simpl String.prefix. cbv iota.
    destruct (_ || _).
    - now rewrite endswith_sep_append.
    - rewrite endswith_sep_append; [|discriminate].
      now rewrite (endswith_sep_append Urls.sep Urls.API_DIR). }
  change (String.prefix Urls.sep directory = false) in Hd.
  unfold Urls.join2 at 1. rewrite Hd, Hend, orb_true_r. reflexivity.
Qed.

Lemma entity_path_is_inside_listed_directory_witness :
  Urls.join "/srv/shop/" [Urls.API_DIR; "cart"]
  = String.append (Urls.join "/srv/shop/" [Urls.API_DIR]) "cart".
Proof.
  apply (entity_path_is_inside_listed_directory "/srv/shop/" "cart").
  reflexivity.
Defined.

(** ** The Staff group, again *)

(** X16. Getting the Staff group is idempotent: once [get_staff_group] has
    returned a group, calling it again on the store it left returns the
    same group and changes nothing. *)
Theorem get_staff_group_idempotent (db db1 : DB) (g : Group) :
  SellerSerializer.get_staff_group db = (db1, Ok g) ->
  SellerSerializer.get_staff_group db1 = (db1, Ok g).
Proof.
  intros H. apply get_staff_group_found.
  destruct (get_staff_group_cases db db1 g H) as [[E ->]|[_ [E _]]];
    exact E.
Qed.

Lemma get_staff_group_idempotent_witness :
  SellerSerializer.get_staff_group
    (fst (SellerSerializer.get_staff_group Shop.db))
  = (fst (SellerSerializer.get_staff_group Shop.db),
     Ok {| group_id := 1; group_name := "Staff" |}).
Proof.
  apply (get_staff_group_idempotent Shop.db).
  vm_compute. reflexivity.
Defined.

(** ** The route table without the cart application *)

(** [urls.py] imports the views of the cart application before it lists
    the API directory: on a deployment without that application the module
    raises [ImportError], though every directory found by the listing has
    an importable route table. *)
Example urlpatterns_without_cart :
  Urls.urlpatterns Shop.env_without_cart Shop.base_dir = Raise ImportError
  /\ Urls.entities Shop.env_without_cart Shop.base_dir
     = Ok ["products"; "orders"]
  /\ Urls.importable Shop.env_without_cart (Urls.format_urls "products")
     = true
  /\ Urls.importable Shop.env_without_cart (Urls.format_urls "orders")
     = true.
Proof. repeat split; vm_compute; reflexivity. Qed.
